(** * Product catalogue service: the request handlers of [service/routes.py]

    A shallow embedding of the Flask handlers (content-type guard, create,
    list, read, update, delete) as computations in a small state and
    exception monad, run against an in-memory model of the persistence
    collaborator declared in [service/models.py]. *)

From Stdlib Require Import String ZArith List Bool Lia.
Import ListNotations.

Set Warnings "-register-all".
Open Scope string_scope.
Open Scope Z_scope.

(** ** JSON values exchanged with the client *)

Inductive json : Type :=
| JNull
| JBool (b : bool)
| JInt (n : Z)
| JReal (literal : string)
| JStr (s : string)
| JList (xs : list json)
| JDict (items : list (string * json)).

(** A dict or multi-dict read by key: the first binding of the key wins. *)
Fixpoint lookup {A : Type} (key : string) (items : list (string * A)) : option A :=
  match items with
  | [] => None
  | (k, v) :: rest => if (k =? key)%string then Some v else lookup key rest
  end.

(** [data[key]] on a decoded JSON body; [None] when [data] is no dict or has
    no such key. *)
Definition json_get (data : json) (key : string) : option json :=
  match data with
  | JDict items => lookup key items
  | _ => None
  end.

(** ** HTTP status codes *)

(** Modelled from the spec: [service/common/status.py] is not among the
    sources; the codes are the ones the spec's interface table gives. *)
Module status.
Definition HTTP_200_OK : Z := 200.
Definition HTTP_201_CREATED : Z := 201.
Definition HTTP_204_NO_CONTENT : Z := 204.
Definition HTTP_400_BAD_REQUEST : Z := 400.
Definition HTTP_404_NOT_FOUND : Z := 404.
Definition HTTP_415_UNSUPPORTED_MEDIA_TYPE : Z := 415.
End status.

(** ** Requests and responses *)

(** What a handler reads of Flask's [request]: the headers under their
    canonical names, the query string ([request.args]) and the decoded body
    ([None] when the body is not JSON, in which case [request.get_json()]
    aborts). *)
Record Request : Type := {
  headers : list (string * string);
  args : list (string * string);
  json_body : option json
}.

(** What a view function returns: [body, status] or [body, status, headers]. *)
Record Response : Type := {
  body : json;
  status_code : Z;
  resp_headers : list (string * string)
}.

(** ** Exceptions *)

Inductive exn : Type :=
| HTTPException (code : Z) (description : string)
| AttributeError (obj attr : string)
| TypeError (message : string).

Inductive outcome (A : Type) : Type :=
| Return (a : A)
| Raise (e : exn).

Arguments Return {A} a.
Arguments Raise {A} e.

(** ** Logging *)

Inductive Level : Type := INFO | ERROR.

Inductive LogArg : Type :=
| ArgStr (s : string)
| ArgInt (n : Z)
| ArgId (i : option Z)
| ArgJson (j : json).

(** [app.logger.info(msg, *args)]: the format string and its arguments. *)
Record LogRecord : Type := {
  levelname : Level;
  msg : string;
  log_args : list LogArg
}.

(** ** What [service/models.py] declares *)

(** Modelled from the spec: what [service/models.py], which the handlers
    import and which is not among the sources, declares.  The decimal type
    of a price with its reading from and writing to JSON, the member names
    of the [Category] enumeration, the names of the other attributes of that
    class ([__name__], [__doc__], [__members__], [mro] and the like) and the
    boolean that the persistence layer reads a query text as are taken as
    parameters.  Filtering by [available=true] and by [available=false]
    matches that flag, so the text [true] reads as true and the text [false]
    as false. *)
Class ModelsDecl : Type := {
  Decimal : Type;
  Decimal_of_json : json -> option Decimal;
  Decimal_to_json : Decimal -> json;
  Category_names : list string;
  Category_attributes : list string;
  boolean_of_text : string -> bool;
  boolean_of_text_true : boolean_of_text "true" = true;
  boolean_of_text_false : boolean_of_text "false" = false
}.

(** A member of the enumeration, identified by its name ([Category.X.name]). *)
Definition Category : Type := string.

(** What [getattr(Category, name)] evaluates to: a member of the
    enumeration, or another attribute of the class, which is no member. *)
Inductive attribute : Type :=
| Member (c : Category)
| ClassAttribute (attr : string).

Section Models.
Context {decl : ModelsDecl}.

(** Modelled from the spec: the Product entity of [service/models.py] (not
    among the sources), with the fields of the spec's data model; [id] is
    unset until the persistence layer assigns it, [description] is optional. *)
Record Product : Type := {
  id : option Z;
  name : string;
  description : option string;
  price : Decimal;
  available : bool;
  category : Category
}.

(** [getattr(Category, name)]: the member of that name; failing that, the
    attribute of the class of that name; failing that, an
    [AttributeError]. *)
Definition getattr_Category (attr : string) : outcome attribute :=
  if existsb (String.eqb attr) Category_names
  then Return (Member attr)
  else if existsb (String.eqb attr) Category_attributes
  then Return (ClassAttribute attr)
  else Raise (AttributeError "Category" attr).

Definition required {A : Type} (field : string) (o : option A) : outcome A :=
  match o with
  | Some a => Return a
  | None => Raise (TypeError field)
  end.

Definition json_text (j : json) : option string :=
  match j with JStr s => Some s | _ => None end.

Definition json_bool (j : json) : option bool :=
  match j with JBool b => Some b | _ => None end.

Definition option_bind {A B : Type} (o : option A) (f : A -> option B) : option B :=
  match o with Some a => f a | None => None end.

Definition nonempty_text (s : string) : option string :=
  if (s =? "")%string then None else Some s.

Definition member_name (s : string) : option Category :=
  if existsb (String.eqb s) Category_names then Some s else None.

(** The optional description: absent or null leaves it unset, a text sets
    it, anything else is of the wrong type. *)
Definition description_of (data : json) : option (option string) :=
  match json_get data "description" with
  | None | Some JNull => Some None
  | Some (JStr s) => Some (Some s)
  | Some _ => None
  end.

(** Modelled from the spec: [Product.deserialize] (in [service/models.py], not
    among the sources).  It overwrites the five mutable fields of the entity
    from the body and keeps the entity's id; it raises a type error when a
    required field is missing or a field has the wrong type: [name] a
    non-empty text, [price] a decimal, [available] a boolean, [category] the
    name of a member of the enumeration. *)
Definition deserialize (self_id : option Z) (data : json) : outcome Product :=
  match required "name" (option_bind (option_bind (json_get data "name") json_text) nonempty_text) with
  | Raise e => Raise e
  | Return name_ =>
  match required "description" (description_of data) with
  | Raise e => Raise e
  | Return description_ =>
  match required "price" (option_bind (json_get data "price") Decimal_of_json) with
  | Raise e => Raise e
  | Return price_ =>
  match required "available" (option_bind (json_get data "available") json_bool) with
  | Raise e => Raise e
  | Return available_ =>
  match required "category" (option_bind (option_bind (json_get data "category") json_text) member_name) with
  | Raise e => Raise e
  | Return category_ =>
      Return {| id := self_id; name := name_; description := description_;
                price := price_; available := available_; category := category_ |}
  end end end end end.

Definition json_of_id (i : option Z) : json :=
  match i with Some n => JInt n | None => JNull end.

Definition json_of_description (d : option string) : json :=
  match d with Some s => JStr s | None => JNull end.

(** Modelled from the spec: [Product.serialize] (not among the sources), the
    entity JSON shape [{id, name, description, price, available, category}]
    with the category as its member name. *)
Definition serialize (p : Product) : json :=
  JDict [("id", json_of_id (id p));
         ("name", JStr (name p));
         ("description", json_of_description (description p));
         ("price", Decimal_to_json (price p));
         ("available", JBool (available p));
         ("category", JStr (category p))].

(** ** The persistence collaborator and the process state *)

(** Modelled from the spec: the relational store behind [service.models]
    (not among the sources), as the table's rows in the order the store
    returns them and the next identifier it assigns. *)
Record Store : Type := {
  rows : list Product;
  next_id : Z
}.

Record World : Type := {
  db : Store;
  logged : list LogRecord
}.

Definition with_db (w : World) (s : Store) : World :=
  {| db := s; logged := logged w |}.

(** ** Handler computations: state passing with exceptions *)

Definition M (A : Type) : Type := World -> outcome A * World.

Definition ret {A : Type} (a : A) : M A := fun w => (Return a, w).

Definition raise {A : Type} (e : exn) : M A := fun w => (Raise e, w).

Definition bind {A B : Type} (c : M A) (k : A -> M B) : M B :=
  fun w =>
    match c w with
    | (Return a, w') => k a w'
    | (Raise e, w') => (Raise e, w')
    end.

Definition lift {A : Type} (o : outcome A) : M A := fun w => (o, w).

(** [try: c except TypeError: h]; any other exception passes through. *)
Definition try_except_TypeError {A : Type} (c : M A) (h : M A) : M A :=
  fun w =>
    match c w with
    | (Raise (TypeError _), w') => h w'
    | r => r
    end.

End Models.

Notation "x <- c ;; k" := (bind c (fun x => k))
  (at level 61, c at next level, right associativity).
Notation "c ;;; k" := (bind c (fun _ => k))
  (at level 61, right associativity).

Section Collaborator.
Context {decl : ModelsDecl}.

Definition has_id (product_id : Z) (p : Product) : bool :=
  match id p with
  | Some i => i =? product_id
  | None => false
  end.

Definition same_row (p r : Product) : bool :=
  match id p with
  | Some i => has_id i r
  | None => false
  end.

Definition with_id (i : option Z) (p : Product) : Product :=
  {| id := i; name := name p; description := description p;
     price := price p; available := available p; category := category p |}.

(** Every row carries an id below the next one the store assigns. *)
Definition store_ok (s : Store) : bool :=
  forallb (fun r => match id r with Some i => i <? next_id s | None => false end) (rows s).

(** Modelled from the spec: the operations of the persistence collaborator
    ([Product.find], [all], [find_by_name], [find_by_category],
    [find_by_availability], [create], [update], [delete] of
    [service/models.py], not among the sources). *)

(** Lookup by id: the entity, or nothing.  The identifier is the one the
    path segment of the request denotes. *)
Definition Product_find (product_id : Z) : M (option Product) :=
  fun w => (Return (find (has_id product_id) (rows (db w))), w).

(** Every persisted Product. *)
Definition Product_all : M (list Product) :=
  fun w => (Return (rows (db w)), w).

(** Exact match against the persisted name. *)
Definition Product_find_by_name (name_ : string) : M (list Product) :=
  fun w => (Return (filter (fun p => (name p =? name_)%string) (rows (db w))), w).

(** Modelled from the spec: the category lookup returns the entities whose
    category matches the given value; a value that is no member of the
    enumeration is no entity's category. *)
Definition category_is (value : attribute) (p : Product) : bool :=
  match value with
  | Member c => (category p =? c)%string
  | ClassAttribute _ => false
  end.

(** The entities whose category matches. *)
Definition Product_find_by_category (category_ : attribute) : M (list Product) :=
  fun w => (Return (filter (category_is category_) (rows (db w))), w).

(** The supplied text is read as a boolean and matched against the flag. *)
Definition Product_find_by_availability (available_ : string) : M (list Product) :=
  fun w => (Return (filter (fun p => Bool.eqb (available p) (boolean_of_text available_))
                           (rows (db w))), w).

(** Persists the entity under a new unique id, overwriting any id it had. *)
Definition Product_create (p : Product) : M Product :=
  fun w =>
    let s := db w in
    let p' := with_id (Some (next_id s)) p in
    (Return p', with_db w {| rows := rows s ++ [p']; next_id := next_id s + 1 |}).

(** Persists the changed entity in place of its row. *)
Definition Product_update (p : Product) : M unit :=
  fun w =>
    let s := db w in
    (Return tt,
     with_db w {| rows := map (fun r => if same_row p r then p else r) (rows s);
                  next_id := next_id s |}).

(** Removes the entity's row. *)
Definition Product_delete (p : Product) : M unit :=
  fun w =>
    let s := db w in
    (Return tt,
     with_db w {| rows := filter (fun r => negb (same_row p r)) (rows s);
                  next_id := next_id s |}).

End Collaborator.

(** ** The handlers of [service/routes.py] *)

Section Routes.
Context {decl : ModelsDecl}.

Definition logger (lvl : Level) (fmt : string) (a : list LogArg) : M unit :=
  fun w =>
    (Return tt,
     {| db := db w;
        logged := logged w ++ [{| levelname := lvl; msg := fmt; log_args := a |}] |}).

Definition logger_info := logger INFO.
Definition logger_error := logger ERROR.

(** [flask.abort(code, description)] raises the HTTP exception. *)
Definition abort {A : Type} (code : Z) (description_ : string) : M A :=
  raise (HTTPException code description_).

(** The description werkzeug's [BadRequest] carries by default. *)
Definition BadRequest_description : string :=
  "The browser (or proxy) sent a request that this server could not understand.".

(** [request.get_json()]: the decoded body; a body that does not decode
    raises [BadRequest], the HTTP exception of code 400. *)
Definition get_json (request : Request) : M json :=
  match json_body request with
  | Some data => ret data
  | None => abort status.HTTP_400_BAD_REQUEST BadRequest_description
  end.

(** [request.args.get(key)] *)
Definition args_get (request : Request) (key : string) : option string :=
  lookup key (args request).

(** Python's truth test on [str | None]: the text when [if v:] holds. *)
Definition truthy (v : option string) : option string :=
  match v with
  | Some s => if (s =? "")%string then None else Some s
  | None => None
  end.

Definition len {A : Type} (l : list A) : Z := Z.of_nat (length l).

(** Let them know our heart is still beating *)
Definition healthcheck : M Response :=
  ret {| body := JDict [("status", JInt 200); ("message", JStr "OK")];
         status_code := status.HTTP_200_OK;
         resp_headers := [] |}.

(** Checks that the media type is correct *)
Definition check_content_type (request : Request) (content_type : string) : M unit :=
  match lookup "Content-Type" (headers request) with
  | None =>
      logger_error "No Content-Type specified." [] ;;;
      abort status.HTTP_415_UNSUPPORTED_MEDIA_TYPE ("Content-Type must be " ++ content_type)
  | Some value =>
      if (value =? content_type)%string then ret tt
      else
        logger_error "Invalid Content-Type: %s" [ArgStr value] ;;;
        abort status.HTTP_415_UNSUPPORTED_MEDIA_TYPE ("Content-Type must be " ++ content_type)
  end.

(** Creates a Product *)
Definition create_products (request : Request) : M Response :=
  logger_info "Request to Create a Product..." [] ;;;
  check_content_type request "application/json" ;;;
  data <- get_json request ;;
  logger_info "Processing: %s" [ArgJson data] ;;;
  (* product = Product(); a new entity has no id *)
  product <- lift (deserialize None data) ;;
  product <- Product_create product ;;
  logger_info "Product with new id [%s] saved!" [ArgId (id product)] ;;;
  let message := serialize product in
  let location_url := "/" in
  ret {| body := message;
         status_code := status.HTTP_201_CREATED;
         resp_headers := [("Location", location_url)] |}.

(** Returns a list of Products *)
Definition list_products (request : Request) : M Response :=
  logger_info "Request to list Products..." [] ;;;
  let name_ := args_get request "name" in
  let category_ := args_get request "category" in
  let available_ := args_get request "available" in
  final_products <-
    match truthy name_ with
    | Some name_ =>
        products <- Product_find_by_name name_ ;;
        let final_products := map serialize products in
        logger_info "[%s] Products final by name" [ArgInt (len final_products)] ;;;
        ret final_products
    | None =>
    match truthy category_ with
    | Some category_ =>
        member <- lift (getattr_Category category_) ;;
        products <- Product_find_by_category member ;;
        let final_products := map serialize products in
        logger_info "[%s] Products final by category" [ArgInt (len final_products)] ;;;
        ret final_products
    | None =>
    match truthy available_ with
    | Some available_ =>
        products <- Product_find_by_availability available_ ;;
        let final_products := map serialize products in
        logger_info "[%s] Products final by available" [ArgInt (len final_products)] ;;;
        ret final_products
    | None =>
        products <- Product_all ;;
        let final_products := map serialize products in
        logger_info "[%s] Products final" [ArgInt (len final_products)] ;;;
        ret final_products
    end end end ;;
  ret {| body := JList final_products;
         status_code := status.HTTP_200_OK;
         resp_headers := [] |}.

(** retrieve specific product from database by id inside link *)
Definition get_products (product_id : Z) : M Response :=
  logger_info "Request to Retrieve a Product..." [] ;;;
  prods <- Product_find product_id ;;
  match prods with
  | None =>
      ret {| body := JDict []; status_code := status.HTTP_404_NOT_FOUND; resp_headers := [] |}
  | Some prods =>
      ret {| body := serialize prods; status_code := status.HTTP_200_OK; resp_headers := [] |}
  end.

(** Update an Product *)
Definition update_products (request : Request) (product_id : Z) : M Response :=
  logger_info "Request to Update a product with id [%s]" [ArgInt product_id] ;;;
  check_content_type request "application/json" ;;;
  prod_upt <- Product_find product_id ;;
  match prod_upt with
  | None =>
      ret {| body := JDict []; status_code := status.HTTP_404_NOT_FOUND; resp_headers := [] |}
  | Some prod_upt =>
      try_except_TypeError
        (data <- get_json request ;;
         prod_upt <- lift (deserialize (id prod_upt) data) ;;
         Product_update prod_upt ;;;
         ret {| body := serialize prod_upt;
                status_code := status.HTTP_200_OK;
                resp_headers := [] |})
        (ret {| body := JDict [];
                status_code := status.HTTP_400_BAD_REQUEST;
                resp_headers := [] |})
  end.

(** Delete a Product *)
Definition delete_products (product_id : Z) : M Response :=
  logger_info "Request to Delete a product with id [%s]" [ArgInt product_id] ;;;
  prod_upt <- Product_find product_id ;;
  match prod_upt with
  | None =>
      ret {| body := JDict []; status_code := status.HTTP_404_NOT_FOUND; resp_headers := [] |}
  | Some prod_upt =>
      Product_delete prod_upt ;;;
      ret {| body := JDict []; status_code := status.HTTP_204_NO_CONTENT; resp_headers := [] |}
  end.

End Routes.

(** ** Vocabulary of the statements *)

Section Vocabulary.
Context {decl : ModelsDecl}.

(** The state after one more log record. *)
Definition log_error (fmt : string) (a : list LogArg) (w : World) : World :=
  {| db := db w; logged := logged w ++ [{| levelname := ERROR; msg := fmt; log_args := a |}] |}.

Definition log_info (fmt : string) (a : list LogArg) (w : World) : World :=
  {| db := db w; logged := logged w ++ [{| levelname := INFO; msg := fmt; log_args := a |}] |}.

(** The failure of the Content-Type guard. *)
Definition unsupported_media_type {A : Type} (content_type : string) : outcome A :=
  Raise (HTTPException 415 ("Content-Type must be " ++ content_type)).

(** The response of the list handler carrying the given entities. *)
Definition list_response (items : list Product) : Response :=
  {| body := JList (map serialize items); status_code := 200; resp_headers := [] |}.

(** The state the list handler leaves: its two log records, the store as
    it was. *)
Definition listed (fmt : string) (items : list Product) (w : World) : World :=
  log_info fmt [ArgInt (len (map serialize items))]
    (log_info "Request to list Products..." [] w).

Definition by_name (name_ : string) (p : Product) : bool := (name p =? name_)%string.
Definition by_category (category_ : Category) (p : Product) : bool :=
  (category p =? category_)%string.
Definition by_flag (flag : bool) (p : Product) : bool := Bool.eqb (available p) flag.

Definition not_found : Response :=
  {| body := JDict []; status_code := 404; resp_headers := [] |}.

Definition bad_request : Response :=
  {| body := JDict []; status_code := 400; resp_headers := [] |}.

Definition no_content : Response :=
  {| body := JDict []; status_code := 204; resp_headers := [] |}.

Definition ok (p : Product) : Response :=
  {| body := serialize p; status_code := 200; resp_headers := [] |}.

Definition created (p : Product) : Response :=
  {| body := serialize p; status_code := 201; resp_headers := [("Location", "/")] |}.

(** What a lookup by id finds in a state. *)
Definition stored (w : World) (product_id : Z) : option Product :=
  find (has_id product_id) (rows (db w)).

(** The service before any request, and the states requests lead to. *)
Definition empty_world : World :=
  {| db := {| rows := []; next_id := 1 |}; logged := [] |}.

Inductive step : World -> World -> Prop :=
| step_create (request : Request) (w : World) :
    step w (snd (create_products request w))
| step_list (request : Request) (w : World) :
    step w (snd (list_products request w))
| step_get (product_id : Z) (w : World) :
    step w (snd (get_products product_id w))
| step_update (request : Request) (product_id : Z) (w : World) :
    step w (snd (update_products request product_id w))
| step_delete (product_id : Z) (w : World) :
    step w (snd (delete_products product_id w)).

Inductive reachable : World -> Prop :=
| reachable_empty : reachable empty_world
| reachable_step (w w' : World) : reachable w -> step w w' -> reachable w'.

(** The request with every binding of one query parameter dropped. *)
Definition without (key : string) (request : Request) : Request :=
  {| headers := headers request;
     args := filter (fun kv => negb (fst kv =? key)%string) (args request);
     json_body := json_body request |}.

End Vocabulary.

Ltac run_handler :=
  unfold bind, ret, raise, lift, abort, logger_info, logger_error, logger,
    Product_find, Product_all, Product_find_by_name, Product_find_by_category,
    Product_find_by_availability, Product_create, Product_update, Product_delete,
    try_except_TypeError, get_json, with_db; simpl.

Ltac log_grows :=
  run_handler; unfold log_info, log_error, with_db; simpl;
  rewrite <- ?app_assoc; simpl;
  eexists; eexists; split; [reflexivity | reflexivity].

(** ** A concrete catalogue to run the handlers on *)

Definition decimal_char (c : Ascii.ascii) : bool :=
  let n := Ascii.nat_of_ascii c in
  ((48 <=? n)%nat && (n <=? 57)%nat) || (n =? 46)%nat.

Fixpoint decimal_literal (s : string) : bool :=
  match s with
  | EmptyString => true
  | String c rest => decimal_char c && decimal_literal rest
  end.

(** Prices kept as their decimal literal; two categories and some of the
    other attributes of an enumeration class; the texts [true] and [True]
    read as true, every other text as false. *)
Definition demo_decl : ModelsDecl := {|
  Decimal := string;
  Decimal_of_json := fun j =>
    match j with
    | JStr s | JReal s =>
        if decimal_literal s && negb (s =? "")%string then Some s else None
    | _ => None
    end;
  Decimal_to_json := JStr;
  Category_names := ["CLOTHS"; "FOOD"];
  Category_attributes := ["__name__"; "__doc__"; "__members__"; "__module__"; "mro"];
  boolean_of_text := fun s => (s =? "true")%string || (s =? "True")%string;
  boolean_of_text_true := eq_refl;
  boolean_of_text_false := eq_refl
|}.

Definition hat : @Product demo_decl :=
  {| id := Some 1; name := "Hat"; description := Some "Red hat";
     price := ("9.99" : @Decimal demo_decl); available := true; category := "CLOTHS" |}.

Definition apple : @Product demo_decl :=
  {| id := Some 2; name := "Apple"; description := None;
     price := ("0.50" : @Decimal demo_decl); available := false; category := "FOOD" |}.

Definition hat_payload : json :=
  JDict [("name", JStr "Hat"); ("description", JStr "Red hat"); ("price", JStr "9.99");
         ("available", JBool true); ("category", JStr "CLOTHS")].

Definition apple_payload : json :=
  JDict [("name", JStr "Apple"); ("price", JStr "0.50");
         ("available", JBool false); ("category", JStr "FOOD")].

Definition json_request (data : json) : Request :=
  {| headers := [("Content-Type", "application/json")]; args := []; json_body := Some data |}.

(** The service after the hat and the apple were posted to it: its rows
    are [hat] and [apple], in that order. *)
Definition demo_world : @World demo_decl :=
  snd (create_products (json_request apple_payload)
         (snd (create_products (json_request hat_payload) empty_world))).

(** The same body declared with a charset parameter. *)
Definition charset_request (data : json) : Request :=
  {| headers := [("Content-Type", "application/json; charset=utf-8")];
     args := []; json_body := Some data |}.

(** A request declared as JSON whose body does not decode. *)
Definition undecodable_request : Request :=
  {| headers := [("Content-Type", "application/json")]; args := []; json_body := None |}.

Definition query (params : list (string * string)) : Request :=
  {| headers := []; args := params; json_body := None |}.

(** ** Vocabulary of the further properties *)

Section Scenarios.
Context {decl : ModelsDecl}.

(** The payloads posted one after the other with Content-Type
    application/json, as the loop of the tests' [_create_products] does. *)
Fixpoint post_all (payloads : list json) (w : World) : World :=
  match payloads with
  | [] => w
  | data :: rest => post_all rest (snd (create_products (json_request data) w))
  end.

(** The payloads that deserialize, as entities numbered from [n] on. *)
Fixpoint entities (n : Z) (payloads : list json) : list Product :=
  match payloads with
  | [] => []
  | data :: rest =>
      match deserialize (Some n) data with
      | Return p => p :: entities (n + 1) rest
      | Raise _ => entities n rest
      end
  end.

Definition deserializes (data : json) : bool :=
  match deserialize None data with
  | Return _ => true
  | Raise _ => false
  end.

(** Tests on a payload's fields. *)
Definition payload_named (name_ : string) (data : json) : bool :=
  match json_get data "name" with
  | Some (JStr s) => (s =? name_)%string
  | _ => false
  end.

Definition payload_in_category (category_ : string) (data : json) : bool :=
  match json_get data "category" with
  | Some (JStr s) => (s =? category_)%string
  | _ => false
  end.

Definition payload_flagged (flag : bool) (data : json) : bool :=
  match json_get data "available" with
  | Some (JBool b) => Bool.eqb b flag
  | _ => false
  end.

(** The data-model invariants of a row under a given next id: it has an id
    below the next one, a non-empty name and a category of the
    enumeration. *)
Definition row_ok (next : Z) (r : Product) : Prop :=
  (exists i, id r = Some i /\ i < next) /\
  name r <> "" /\
  In (category r) Category_names.

Definition catalogue_ok (s : Store) : Prop :=
  NoDup (map id (rows s)) /\ Forall (row_ok (next_id s)) (rows s).

(** The entity with another description, as the update test changes it. *)
Definition with_description (d : option string) (p : Product) : Product :=
  {| id := id p; name := name p; description := d;
     price := price p; available := available p; category := category p |}.

(** A Product whose serialization is a payload the service accepts. *)
Definition postable (p : Product) : Prop :=
  name p <> "" /\
  In (category p) Category_names /\
  Decimal_of_json (Decimal_to_json (price p)) = Some (price p).

(** The entities a response of the list handler carries. *)
Definition listing (r : outcome Response) : option (list json) :=
  match r with
  | Return {| body := JList items; status_code := 200 |} => Some items
  | _ => None
  end.

End Scenarios.

(** * Properties *)

Section Properties.
Context {decl : ModelsDecl}.

Lemma check_content_type_pass (request : Request) (content_type : string) (w : World) :
  lookup "Content-Type" (headers request) = Some content_type ->
  check_content_type request content_type w = (Return tt, w).
Proof.
  intros Hheader. unfold check_content_type.
  rewrite Hheader, String.eqb_refl. reflexivity.
Qed.

(** C3. The Content-Type guard: with the header absent it fails with 415 and
    a message stating the required type; with the header present but
    different from the required type it fails the same way; with the header
    equal to the required type it returns with the state (store and log)
    untouched.  A create or update request that does not pass the guard for
    application/json ends in that failure with the store as it was. *)
Theorem check_content_type_guard (request : Request) (content_type : string) (w : World) :
  (lookup "Content-Type" (headers request) = None ->
     check_content_type request content_type w =
       (unsupported_media_type content_type,
        log_error "No Content-Type specified." [] w)) /\
  (forall value, lookup "Content-Type" (headers request) = Some value ->
     value <> content_type ->
     check_content_type request content_type w =
       (unsupported_media_type content_type,
        log_error "Invalid Content-Type: %s" [ArgStr value] w)) /\
  (lookup "Content-Type" (headers request) = Some content_type ->
     check_content_type request content_type w = (Return tt, w)) /\
  (lookup "Content-Type" (headers request) <> Some "application/json" ->
     (fst (create_products request w) = unsupported_media_type "application/json" /\
      db (snd (create_products request w)) = db w) /\
     (forall product_id,
        fst (update_products request product_id w) =
          unsupported_media_type "application/json" /\
        db (snd (update_products request product_id w)) = db w)).
Proof.
  split; [| split; [| split]].
  - unfold check_content_type. intros ->. reflexivity.
  - unfold check_content_type. intros value -> Hne.
    destruct (String.eqb_spec value content_type) as [Heq | _]; [contradiction | reflexivity].
  - apply check_content_type_pass.
  - intros Hheader. unfold create_products, update_products, check_content_type.
    destruct (lookup "Content-Type" (headers request)) as [value |].
    + destruct (String.eqb_spec value "application/json") as [-> | _].
      * exfalso. apply Hheader. reflexivity.
      * repeat split; reflexivity.
    + repeat split; reflexivity.
Qed.

(** The list handler, branch by branch. *)
Lemma list_products_run (request : Request) (w : World) :
  list_products request w =
    match truthy (args_get request "name") with
    | Some x =>
        let items := filter (by_name x) (rows (db w)) in
        (Return (list_response items), listed "[%s] Products final by name" items w)
    | None =>
    match truthy (args_get request "category") with
    | Some y =>
        match getattr_Category y with
        | Return member =>
            let items := filter (category_is member) (rows (db w)) in
            (Return (list_response items), listed "[%s] Products final by category" items w)
        | Raise e => (Raise e, log_info "Request to list Products..." [] w)
        end
    | None =>
    match truthy (args_get request "available") with
    | Some z =>
        let items := filter (by_flag (boolean_of_text z)) (rows (db w)) in
        (Return (list_response items), listed "[%s] Products final by available" items w)
    | None =>
        let items := rows (db w) in
        (Return (list_response items), listed "[%s] Products final" items w)
    end end end.
Proof.
  unfold list_products.
  destruct (truthy (args_get request "name")) as [x |]; [reflexivity |].
  destruct (truthy (args_get request "category")) as [y |].
  - run_handler. destruct (getattr_Category y); reflexivity.
  - destruct (truthy (args_get request "available")); reflexivity.
Qed.

Lemma getattr_Category_member (y : string) :
  In y Category_names -> getattr_Category y = Return (Member y).
Proof.
  intros Hin. unfold getattr_Category.
  replace (existsb (String.eqb y) Category_names) with true; [reflexivity |].
  symmetry. apply existsb_exists. exists y. split; [exact Hin | apply String.eqb_refl].
Qed.

Lemma existsb_eqb_false (y : string) (names : list string) :
  ~ In y names -> existsb (String.eqb y) names = false.
Proof.
  intros Hout. destruct (existsb (String.eqb y) names) eqn:E; [| reflexivity].
  apply existsb_exists in E. destruct E as [x [Hin Heq]].
  apply String.eqb_eq in Heq. subst x. contradiction.
Qed.


Lemma getattr_Category_attribute (y : string) :
  ~ In y Category_names -> In y Category_attributes ->
  getattr_Category y = Return (ClassAttribute y).
Proof.
  intros Hmember Hattribute. unfold getattr_Category.
  rewrite (existsb_eqb_false y _ Hmember).
  replace (existsb (String.eqb y) Category_attributes) with true; [reflexivity |].
  symmetry. apply existsb_exists. exists y. split; [exact Hattribute | apply String.eqb_refl].
Qed.

(** C1 (amended). The list handler applies exactly one filter, chosen among
    the parameters supplied with a non-empty value with precedence name,
    then category, then available; when none has a non-empty value it
    returns every persisted Product.  The response is HTTP 200 in each of
    these cases, a chosen category naming a member of the enumeration, and
    the store is left as it was. *)
Theorem list_products_precedence (request : Request) (w : World) :
  (forall x, truthy (args_get request "name") = Some x ->
     list_products request w =
       (Return (list_response (filter (by_name x) (rows (db w)))),
        listed "[%s] Products final by name" (filter (by_name x) (rows (db w))) w)) /\
  (forall y, truthy (args_get request "name") = None ->
     truthy (args_get request "category") = Some y ->
     In y Category_names ->
     list_products request w =
       (Return (list_response (filter (by_category y) (rows (db w)))),
        listed "[%s] Products final by category" (filter (by_category y) (rows (db w))) w)) /\
  (forall z, truthy (args_get request "name") = None ->
     truthy (args_get request "category") = None ->
     truthy (args_get request "available") = Some z ->
     list_products request w =
       (Return (list_response (filter (by_flag (boolean_of_text z)) (rows (db w)))),
        listed "[%s] Products final by available"
          (filter (by_flag (boolean_of_text z)) (rows (db w))) w)) /\
  (truthy (args_get request "name") = None ->
     truthy (args_get request "category") = None ->
     truthy (args_get request "available") = None ->
     list_products request w =
       (Return (list_response (rows (db w))),
        listed "[%s] Products final" (rows (db w)) w)).
Proof.
  rewrite list_products_run. repeat split.
  - intros x ->. reflexivity.
  - intros y -> -> Hin. rewrite (getattr_Category_member y Hin). reflexivity.
  - intros z -> -> ->. reflexivity.
  - intros -> -> ->. reflexivity.
Qed.

(** C2 (amended). With the name and category parameters absent or empty and
    the available parameter supplied non-empty, the supplied text is coerced
    to a boolean and the handler returns, with HTTP 200, exactly the
    persisted Products whose availability flag matches that boolean; in
    particular [available=true] returns exactly the available Products and
    [available=false] exactly the unavailable ones. *)
Theorem list_products_by_availability (request : Request) (w : World) (text : string) :
  truthy (args_get request "name") = None ->
  truthy (args_get request "category") = None ->
  args_get request "available" = Some text ->
  text <> "" ->
  (fst (list_products request w) =
     Return (list_response (filter (by_flag (boolean_of_text text)) (rows (db w)))) /\
   db (snd (list_products request w)) = db w) /\
  (text = "true" ->
     fst (list_products request w) =
       Return (list_response (filter (fun p => available p) (rows (db w))))) /\
  (text = "false" ->
     fst (list_products request w) =
       Return (list_response (filter (fun p => negb (available p)) (rows (db w))))).
Proof.
  intros Hname Hcategory Havailable Htext.
  assert (Hrun : fst (list_products request w) =
            Return (list_response (filter (by_flag (boolean_of_text text)) (rows (db w))))
          /\ db (snd (list_products request w)) = db w).
  { rewrite list_products_run, Hname, Hcategory, Havailable. simpl.
    destruct (String.eqb_spec text "") as [Heq | _]; [contradiction |].
    split; reflexivity. }
  split; [exact Hrun | split].
  - intros ->. destruct Hrun as [-> _]. rewrite boolean_of_text_true. do 2 f_equal.
    apply filter_ext. intros p. unfold by_flag. destruct (available p); reflexivity.
  - intros ->. destruct Hrun as [-> _]. rewrite boolean_of_text_false. reflexivity.
Qed.


Lemma lookup_without {A : Type} (key dropped : string) (items : list (string * A)) :
  lookup key (filter (fun kv => negb (fst kv =? dropped)%string) items) =
    if (dropped =? key)%string then None else lookup key items.
Proof.
  induction items as [| [k v] rest IH]; simpl.
  - destruct (dropped =? key)%string; reflexivity.
  - destruct (String.eqb_spec k dropped) as [-> | Hkd]; simpl.
    + rewrite IH. destruct (dropped =? key)%string; reflexivity.
    + rewrite IH. destruct (String.eqb_spec k key) as [-> | Hkk]; [| reflexivity].
      destruct (String.eqb_spec dropped key) as [-> | _]; [contradiction | reflexivity].
Qed.

Lemma truthy_empty (v : option string) : v = Some "" -> truthy v = None.
Proof. intros ->. reflexivity. Qed.

(** C10. The list handler tests its query parameters for truth, not for
    presence: a parameter supplied with the empty text is treated as absent.
    A request with [name=] performs no name lookup: it is answered by the
    category filter when the category is non-empty, else by the available
    filter when available is non-empty, else by the list of all.  A request
    with [category=] and no non-empty name is answered by the available
    filter or by the list of all, and one with [available=] and no non-empty
    name or category by the list of all.  In each case the request does what
    the same request without the empty parameter does. *)
Theorem list_products_empty_parameter (request : Request) (w : World) :
  (args_get request "name" = Some "" ->
     (forall y, truthy (args_get request "category") = Some y ->
        In y Category_names ->
        list_products request w =
          (Return (list_response (filter (by_category y) (rows (db w)))),
           listed "[%s] Products final by category"
             (filter (by_category y) (rows (db w))) w)) /\
     (forall z, truthy (args_get request "category") = None ->
        truthy (args_get request "available") = Some z ->
        list_products request w =
          (Return (list_response (filter (by_flag (boolean_of_text z)) (rows (db w)))),
           listed "[%s] Products final by available"
             (filter (by_flag (boolean_of_text z)) (rows (db w))) w)) /\
     (truthy (args_get request "category") = None ->
        truthy (args_get request "available") = None ->
        list_products request w =
          (Return (list_response (rows (db w))),
           listed "[%s] Products final" (rows (db w)) w)) /\
     list_products request w = list_products (without "name" request) w) /\
  (args_get request "category" = Some "" ->
     truthy (args_get request "name") = None ->
     (forall z, truthy (args_get request "available") = Some z ->
        list_products request w =
          (Return (list_response (filter (by_flag (boolean_of_text z)) (rows (db w)))),
           listed "[%s] Products final by available"
             (filter (by_flag (boolean_of_text z)) (rows (db w))) w)) /\
     (truthy (args_get request "available") = None ->
        list_products request w =
          (Return (list_response (rows (db w))),
           listed "[%s] Products final" (rows (db w)) w)) /\
     list_products request w = list_products (without "category" request) w) /\
  (args_get request "available" = Some "" ->
     truthy (args_get request "name") = None ->
     truthy (args_get request "category") = None ->
     list_products request w =
       (Return (list_response (rows (db w))),
        listed "[%s] Products final" (rows (db w)) w) /\
     list_products request w = list_products (without "available" request) w).
Proof.
  assert (Hwithout : forall key,
            key = "name" \/ key = "category" \/ key = "available" ->
            args_get request key = Some "" ->
            list_products request w = list_products (without key request) w).
  { intros key Hkey Hempty.
    destruct Hkey as [-> | [-> | ->]];
      rewrite !list_products_run; unfold args_get, without; simpl;
      rewrite !lookup_without; simpl; fold (args_get request "name");
      fold (args_get request "category"); fold (args_get request "available");
      rewrite (truthy_empty _ Hempty); reflexivity. }
  split; [| split].
  - intros Hempty. pose proof (truthy_empty _ Hempty) as Hname.
    split; [| split; [| split]].
    + intros y Hcategory Hin.
      rewrite list_products_run, Hname, Hcategory, (getattr_Category_member y Hin).
      reflexivity.
    + intros z Hcategory Havailable.
      rewrite list_products_run, Hname, Hcategory, Havailable. reflexivity.
    + intros Hcategory Havailable.
      rewrite list_products_run, Hname, Hcategory, Havailable. reflexivity.
    + apply Hwithout; [left; reflexivity | exact Hempty].
  - intros Hempty Hname. pose proof (truthy_empty _ Hempty) as Hcategory.
    split; [| split].
    + intros z Havailable.
      rewrite list_products_run, Hname, Hcategory, Havailable. reflexivity.
    + intros Havailable.
      rewrite list_products_run, Hname, Hcategory, Havailable. reflexivity.
    + apply Hwithout; [right; left; reflexivity | exact Hempty].
  - intros Hempty Hname Hcategory. pose proof (truthy_empty _ Hempty) as Havailable.
    split.
    + rewrite list_products_run, Hname, Hcategory, Havailable. reflexivity.
    + apply Hwithout; [right; right; reflexivity | exact Hempty].
Qed.

(** ** Facts about the store *)

Lemma find_has_id (k : Z) (l : list Product) (p : Product) :
  find (has_id k) l = Some p -> id p = Some k.
Proof.
  intros Hfind. apply find_some in Hfind. destruct Hfind as [_ Hid].
  unfold has_id in Hid. destruct (id p) as [i |]; [| discriminate].
  apply Z.eqb_eq in Hid. now subst i.
Qed.

Lemma find_persisted (k : Z) (l : list Product) (p : Product) :
  In p l -> id p = Some k -> exists q, find (has_id k) l = Some q.
Proof.
  intros Hin Hid. destruct (find (has_id k) l) as [q |] eqn:E; [now exists q |].
  exfalso. pose proof (find_none _ _ E p Hin) as Hno.
  unfold has_id in Hno. rewrite Hid, Z.eqb_refl in Hno. discriminate.
Qed.

Lemma same_row_has_id (p r : Product) (k : Z) :
  id p = Some k -> same_row p r = has_id k r.
Proof. intros Hid. unfold same_row. now rewrite Hid. Qed.

Lemma has_id_unique (j k : Z) (r : Product) :
  has_id j r = true -> has_id k r = true -> j = k.
Proof.
  unfold has_id. destruct (id r) as [i |]; [| discriminate].
  intros Hj Hk. apply Z.eqb_eq in Hj, Hk. congruence.
Qed.

Lemma find_deleted (p : Product) (k : Z) (l : list Product) :
  id p = Some k ->
  find (has_id k) (filter (fun r => negb (same_row p r)) l) = None.
Proof.
  intros Hid. induction l as [| r l IH]; simpl; [reflexivity |].
  rewrite (same_row_has_id p r k Hid).
  destruct (has_id k r) eqn:E; simpl; [exact IH |].
  rewrite E. exact IH.
Qed.

Lemma find_other_deleted (p : Product) (j k : Z) (l : list Product) :
  id p = Some j -> k <> j ->
  find (has_id k) (filter (fun r => negb (same_row p r)) l) = find (has_id k) l.
Proof.
  intros Hid Hne. induction l as [| r l IH]; simpl; [reflexivity |].
  rewrite (same_row_has_id p r j Hid).
  destruct (has_id j r) eqn:Ej; simpl.
  - destruct (has_id k r) eqn:Ek; [| exact IH].
    exfalso. apply Hne. exact (has_id_unique k j r Ek Ej).
  - destruct (has_id k r); [reflexivity | exact IH].
Qed.

(** ** The handlers, run *)

Lemma get_products_run (product_id : Z) (w : World) :
  get_products product_id w =
    (Return (match stored w product_id with Some p => ok p | None => not_found end),
     log_info "Request to Retrieve a Product..." [] w).
Proof.
  unfold get_products, stored. run_handler.
  destruct (find (has_id product_id) (rows (db w))); reflexivity.
Qed.

Lemma delete_products_run (product_id : Z) (w : World) :
  delete_products product_id w =
    let w1 := log_info "Request to Delete a product with id [%s]" [ArgInt product_id] w in
    match stored w product_id with
    | Some p =>
        (Return no_content,
         with_db w1 {| rows := filter (fun r => negb (same_row p r)) (rows (db w));
                       next_id := next_id (db w) |})
    | None => (Return not_found, w1)
    end.
Proof.
  unfold delete_products, stored. run_handler.
  destruct (find (has_id product_id) (rows (db w))); reflexivity.
Qed.

(** C7. Deleting a persisted Product returns 204 with the empty object as
    body and removes it from the store, leaving the other entities in it;
    after that a read of the same id returns 404, and so does a second
    delete, which changes nothing. *)
Theorem delete_products_then_gone (product_id : Z) (w : World) (p : Product) :
  In p (rows (db w)) ->
  id p = Some product_id ->
  let w1 := snd (delete_products product_id w) in
  fst (delete_products product_id w) = Return no_content /\
  stored w1 product_id = None /\
  (forall k, k <> product_id -> stored w1 k = stored w k) /\
  fst (get_products product_id w1) = Return not_found /\
  fst (delete_products product_id w1) = Return not_found /\
  db (snd (delete_products product_id w1)) = db w1.
Proof.
  intros Hin Hid w1.
  destruct (find_persisted product_id _ p Hin Hid) as [q Hq].
  pose proof (find_has_id _ _ _ Hq) as Hqid.
  fold (stored w product_id) in Hq.
  assert (Hrun : delete_products product_id w =
            (Return no_content,
             with_db (log_info "Request to Delete a product with id [%s]"
                        [ArgInt product_id] w)
               {| rows := filter (fun r => negb (same_row q r)) (rows (db w));
                  next_id := next_id (db w) |})).
  { rewrite delete_products_run, Hq. reflexivity. }
  assert (Hgone : stored w1 product_id = None).
  { unfold w1. rewrite Hrun. apply find_deleted. exact Hqid. }
  split; [rewrite Hrun; reflexivity |].
  split; [exact Hgone |].
  split.
  - intros k Hk. unfold w1. rewrite Hrun.
    apply (find_other_deleted q product_id k); assumption.
  - rewrite get_products_run, delete_products_run, Hgone. repeat split; reflexivity.
Qed.

(** ** Facts about deserialization *)

Lemma deserialize_raises (i : option Z) (data : json) (e : exn) :
  deserialize i data = Raise e -> exists field, e = TypeError field.
Proof.
  unfold deserialize, required.
  repeat match goal with
         | |- context [match ?o with Some _ => _ | None => _ end] => destruct o
         end;
    simpl; intros Heq; inversion Heq; eauto.
Qed.

Lemma deserialize_fields (i : option Z) (data : json) (p : Product) :
  deserialize i data = Return p ->
  id p = i /\
  json_get data "name" = Some (JStr (name p)) /\
  name p <> "" /\
  description_of data = Some (description p) /\
  option_bind (json_get data "price") Decimal_of_json = Some (price p) /\
  json_get data "available" = Some (JBool (available p)) /\
  json_get data "category" = Some (JStr (category p)) /\
  In (category p) Category_names.
Proof.
  unfold deserialize, required.
  destruct (json_get data "name") as [[| | | | n | |] |]; simpl; try discriminate.
  unfold nonempty_text. destruct (String.eqb_spec n "") as [| Hn]; simpl; try discriminate.
  destruct (description_of data) as [d |]; simpl; try discriminate.
  destruct (option_bind (json_get data "price") Decimal_of_json) as [x |];
    simpl; try discriminate.
  destruct (json_get data "available") as [[| b | | | | |] |]; simpl; try discriminate.
  destruct (json_get data "category") as [[| | | | c | |] |]; simpl; try discriminate.
  unfold member_name. destruct (existsb (String.eqb c) Category_names) eqn:Ec;
    simpl; try discriminate.
  intros Heq. inversion Heq; subst p; simpl.
  repeat split; try reflexivity; try assumption.
  apply existsb_exists in Ec. destruct Ec as [c' [Hin Hc]].
  apply String.eqb_eq in Hc. now subst c'.
Qed.

Lemma update_products_run (request : Request) (product_id : Z) (w : World) :
  lookup "Content-Type" (headers request) = Some "application/json" ->
  update_products request product_id w =
    let w1 := log_info "Request to Update a product with id [%s]" [ArgInt product_id] w in
    match stored w product_id with
    | None => (Return not_found, w1)
    | Some p =>
        match json_body request with
        | None => (Raise (HTTPException 400 BadRequest_description), w1)
        | Some data =>
            match deserialize (id p) data with
            | Return p' =>
                (Return (ok p'),
                 with_db w1 {| rows := map (fun r => if same_row p' r then p' else r)
                                           (rows (db w));
                               next_id := next_id (db w) |})
            | Raise (TypeError _) => (Return bad_request, w1)
            | Raise e => (Raise e, w1)
            end
        end
    end.
Proof.
  intros Hheader. unfold update_products, stored.
  unfold bind at 1. unfold logger_info, logger at 1.
  unfold bind at 1. rewrite (check_content_type_pass _ _ _ Hheader).
  run_handler.
  destruct (find (has_id product_id) (rows (db w))) as [p |]; [| reflexivity].
  destruct (json_body request) as [data |]; [| reflexivity].
  simpl. destruct (deserialize (id p) data) as [p' | e]; [reflexivity |].
  destruct e; reflexivity.
Qed.

(** C8. For an id with no persisted Product, the read handler, the update
    handler (the Content-Type being the required one) and the delete handler
    each return 404 with the empty object as body and leave the store
    unchanged. *)
Theorem handlers_not_found (request : Request) (product_id : Z) (w : World) :
  stored w product_id = None ->
  (fst (get_products product_id w) = Return not_found /\
   db (snd (get_products product_id w)) = db w) /\
  (lookup "Content-Type" (headers request) = Some "application/json" ->
   fst (update_products request product_id w) = Return not_found /\
   db (snd (update_products request product_id w)) = db w) /\
  (fst (delete_products product_id w) = Return not_found /\
   db (snd (delete_products product_id w)) = db w).
Proof.
  intros Hnone. split; [| split].
  - rewrite get_products_run, Hnone. split; reflexivity.
  - intros Hheader. rewrite (update_products_run _ _ _ Hheader), Hnone.
    split; reflexivity.
  - rewrite delete_products_run, Hnone. split; reflexivity.
Qed.

Lemma find_updated (p' q : Product) (k : Z) (l : list Product) :
  id p' = Some k ->
  find (has_id k) l = Some q ->
  find (has_id k) (map (fun r => if same_row p' r then p' else r) l) = Some p'.
Proof.
  intros Hid. assert (Hp' : has_id k p' = true).
  { unfold has_id. rewrite Hid. apply Z.eqb_refl. }
  induction l as [| r l IH]; simpl; [discriminate |].
  rewrite (same_row_has_id p' r k Hid).
  destruct (has_id k r) eqn:E.
  - intros _. rewrite Hp'. reflexivity.
  - rewrite E. exact IH.
Qed.

Lemma find_other_updated (p' : Product) (j k : Z) (l : list Product) :
  id p' = Some j -> k <> j ->
  find (has_id k) (map (fun r => if same_row p' r then p' else r) l) = find (has_id k) l.
Proof.
  intros Hid Hne. assert (Hp' : has_id k p' = false).
  { unfold has_id. rewrite Hid. apply Z.eqb_neq. congruence. }
  induction l as [| r l IH]; simpl; [reflexivity |].
  rewrite (same_row_has_id p' r j Hid).
  destruct (has_id j r) eqn:Ej.
  - rewrite Hp'. destruct (has_id k r) eqn:Ek; [| exact IH].
    exfalso. apply Hne. exact (has_id_unique k j r Ek Ej).
  - destruct (has_id k r); [reflexivity | exact IH].
Qed.

(** C5 (amended). For an existing id and a body that deserializes, sent
    with Content-Type application/json, the update handler returns 200 with
    the serialized updated entity; that entity keeps the id and has its name, description, price,
    available and category read from the body; the change is persisted under
    the id, and the other entities and the id counter are left as they
    were. *)
Theorem update_products_replaces
    (request : Request) (product_id : Z) (w : World)
    (existing updated : Product) (data : json) :
  lookup "Content-Type" (headers request) = Some "application/json" ->
  stored w product_id = Some existing ->
  json_body request = Some data ->
  deserialize (id existing) data = Return updated ->
  let w1 := snd (update_products request product_id w) in
  fst (update_products request product_id w) = Return (ok updated) /\
  id updated = Some product_id /\
  (json_get data "name" = Some (JStr (name updated)) /\
   description_of data = Some (description updated) /\
   option_bind (json_get data "price") Decimal_of_json = Some (price updated) /\
   json_get data "available" = Some (JBool (available updated)) /\
   json_get data "category" = Some (JStr (category updated))) /\
  stored w1 product_id = Some updated /\
  (forall k, k <> product_id -> stored w1 k = stored w k) /\
  next_id (db w1) = next_id (db w) /\
  length (rows (db w1)) = length (rows (db w)).
Proof.
  intros Hheader Hfound Hbody Hvalid w1.
  pose proof (find_has_id _ _ _ Hfound) as Hid.
  destruct (deserialize_fields _ _ _ Hvalid)
    as (Hkeep & Hname & _ & Hdescription & Hprice & Havailable & Hcategory & _).
  assert (Hid' : id updated = Some product_id) by congruence.
  assert (Hrun : update_products request product_id w =
            (Return (ok updated),
             with_db (log_info "Request to Update a product with id [%s]"
                        [ArgInt product_id] w)
               {| rows := map (fun r => if same_row updated r then updated else r)
                              (rows (db w));
                  next_id := next_id (db w) |})).
  { rewrite (update_products_run _ _ _ Hheader), Hfound, Hbody, Hvalid. reflexivity. }
  unfold w1. rewrite Hrun. simpl.
  split; [reflexivity |]. split; [exact Hid' |].
  split; [repeat split; assumption |].
  split; [exact (find_updated updated existing product_id _ Hid' Hfound) |].
  split; [| split; [reflexivity | apply length_map]].
  intros k Hk. exact (find_other_updated updated product_id k _ Hid' Hk).
Qed.

(** C6 (amended). For an update of an existing id, sent with Content-Type
    application/json, whose body fails deserialization, the handler returns
    400 with the empty object as body and leaves the store unchanged.  A body fails
    deserialization when a required field (name, price, available, category)
    is missing or not of its type; the empty object is such a body. *)
Theorem update_products_bad_request
    (request : Request) (product_id : Z) (w : World) (existing : Product) (data : json) :
  lookup "Content-Type" (headers request) = Some "application/json" ->
  stored w product_id = Some existing ->
  json_body request = Some data ->
  ((forall p, deserialize (id existing) data <> Return p) ->
   fst (update_products request product_id w) = Return bad_request /\
   db (snd (update_products request product_id w)) = db w) /\
  ((forall s, json_get data "name" <> Some (JStr s)) \/
   (forall x, option_bind (json_get data "price") Decimal_of_json <> Some x) \/
   (forall b, json_get data "available" <> Some (JBool b)) \/
   (forall c, json_get data "category" <> Some (JStr c)) ->
   fst (update_products request product_id w) = Return bad_request /\
   db (snd (update_products request product_id w)) = db w) /\
  (data = JDict [] ->
   fst (update_products request product_id w) = Return bad_request /\
   db (snd (update_products request product_id w)) = db w).
Proof.
  intros Hheader Hfound Hbody.
  assert (Hfail : (forall p, deserialize (id existing) data <> Return p) ->
            fst (update_products request product_id w) = Return bad_request /\
            db (snd (update_products request product_id w)) = db w).
  { intros Hinvalid.
    rewrite (update_products_run _ _ _ Hheader), Hfound, Hbody. simpl.
    destruct (deserialize (id existing) data) as [p | e] eqn:E.
    - exfalso. exact (Hinvalid p eq_refl).
    - destruct (deserialize_raises _ _ _ E) as [field ->]. split; reflexivity. }
  split; [exact Hfail |]. split.
  - intros Hbad. apply Hfail. intros p Hp.
    destruct (deserialize_fields _ _ _ Hp)
      as (_ & Hname & _ & _ & Hprice & Havailable & Hcategory & _).
    destruct Hbad as [Hbad | [Hbad | [Hbad | Hbad]]]; eapply Hbad; eassumption.
  - intros ->. apply Hfail. intros p Hp. discriminate Hp.
Qed.

Lemma find_fresh (n : Z) (l : list Product) :
  forallb (fun r => match id r with Some i => i <? n | None => false end) l = true ->
  find (has_id n) l = None.
Proof.
  induction l as [| r l IH]; simpl; [reflexivity |].
  intros Hall. apply andb_prop in Hall. destruct Hall as [Hr Hl].
  unfold has_id at 1. destruct (id r) as [i |]; [| discriminate].
  apply Z.ltb_lt in Hr. replace (i =? n) with false by (symmetry; apply Z.eqb_neq; lia).
  exact (IH Hl).
Qed.

Lemma find_app_none {A : Type} (f : A -> bool) (l l' : list A) :
  find f l = None -> find f (l ++ l') = find f l'.
Proof.
  induction l as [| a l IH]; simpl; [reflexivity |].
  destruct (f a); [discriminate | exact IH].
Qed.

Lemma deserialize_with_id (i j : option Z) (data : json) (p : Product) :
  deserialize i data = Return p -> deserialize j data = Return (with_id j p).
Proof.
  unfold deserialize.
  repeat match goal with
         | |- context [match required ?f ?o with Return _ => _ | Raise _ => _ end] =>
             destruct (required f o); [| discriminate]
         end.
  intros Heq. inversion Heq. reflexivity.
Qed.

Lemma create_products_run (request : Request) (w : World) :
  lookup "Content-Type" (headers request) = Some "application/json" ->
  create_products request w =
    let w1 := log_info "Request to Create a Product..." [] w in
    match json_body request with
    | None => (Raise (HTTPException 400 BadRequest_description), w1)
    | Some data =>
        let w2 := log_info "Processing: %s" [ArgJson data] w1 in
        match deserialize None data with
        | Raise e => (Raise e, w2)
        | Return p =>
            let p' := with_id (Some (next_id (db w))) p in
            (Return (created p'),
             log_info "Product with new id [%s] saved!" [ArgId (id p')]
               (with_db w2 {| rows := rows (db w) ++ [p'];
                              next_id := next_id (db w) + 1 |}))
        end
    end.
Proof.
  intros Hheader. unfold create_products.
  unfold bind at 1. unfold logger_info, logger at 1.
  unfold bind at 1. rewrite (check_content_type_pass _ _ _ Hheader).
  run_handler.
  destruct (json_body request) as [data |]; [| reflexivity].
  simpl. destruct (deserialize None data); reflexivity.
Qed.

Lemma create_products_fresh
    (request : Request) (w : World) (data : json) (p : Product) :
  lookup "Content-Type" (headers request) = Some "application/json" ->
  json_body request = Some data ->
  deserialize None data = Return p ->
  store_ok (db w) = true ->
  let entity := with_id (Some (next_id (db w))) p in
  let w1 := snd (create_products request w) in
  fst (create_products request w) = Return (created entity) /\
  stored w1 (next_id (db w)) = Some entity.
Proof.
  intros Hheader Hbody Hvalid Hok entity w1.
  assert (Hrun : create_products request w =
            (Return (created entity),
             log_info "Product with new id [%s] saved!" [ArgId (id entity)]
               (with_db (log_info "Processing: %s" [ArgJson data]
                           (log_info "Request to Create a Product..." [] w))
                  {| rows := rows (db w) ++ [entity]; next_id := next_id (db w) + 1 |}))).
  { rewrite (create_products_run _ _ Hheader), Hbody, Hvalid. reflexivity. }
  split; [rewrite Hrun; reflexivity |].
  unfold w1. rewrite Hrun. unfold stored. simpl.
  rewrite (find_app_none _ _ _ (find_fresh (next_id (db w)) _ Hok)). simpl.
  unfold has_id. simpl. rewrite Z.eqb_refl. reflexivity.
Qed.

(** ** The store invariant *)

Lemma store_ok_create (p : Product) (w : World) :
  store_ok (db w) = true -> store_ok (db (snd (Product_create p w))) = true.
Proof.
  unfold store_ok. simpl. intros Hok. rewrite forallb_app. apply andb_true_intro. split.
  - rewrite forallb_forall in *. intros r Hr. specialize (Hok r Hr).
    destruct (id r) as [i |]; [| discriminate].
    apply Z.ltb_lt in Hok. apply Z.ltb_lt. lia.
  - simpl. rewrite andb_true_r. apply Z.ltb_lt. lia.
Qed.

Lemma store_ok_update (p : Product) (k : Z) (w : World) :
  id p = Some k -> k < next_id (db w) ->
  store_ok (db w) = true -> store_ok (db (snd (Product_update p w))) = true.
Proof.
  unfold store_ok. simpl. intros Hid Hk Hok.
  rewrite forallb_forall in *. intros r Hr.
  apply in_map_iff in Hr. destruct Hr as [r0 [Hr0 Hin]].
  destruct (same_row p r0); subst r.
  - rewrite Hid. apply Z.ltb_lt. exact Hk.
  - exact (Hok r0 Hin).
Qed.

Lemma store_ok_delete (p : Product) (w : World) :
  store_ok (db w) = true -> store_ok (db (snd (Product_delete p w))) = true.
Proof.
  unfold store_ok. simpl. intros Hok.
  rewrite forallb_forall in *. intros r Hr.
  apply filter_In in Hr. destruct Hr as [Hin _]. exact (Hok r Hin).
Qed.

Lemma stored_below_next (w : World) (k : Z) (p : Product) :
  store_ok (db w) = true -> stored w k = Some p -> k < next_id (db w).
Proof.
  unfold store_ok, stored. intros Hok Hfound.
  pose proof (find_has_id _ _ _ Hfound) as Hid.
  apply find_some in Hfound. destruct Hfound as [Hin _].
  rewrite forallb_forall in Hok. specialize (Hok p Hin).
  rewrite Hid in Hok. now apply Z.ltb_lt.
Qed.

Lemma list_products_db (request : Request) (w : World) :
  db (snd (list_products request w)) = db w.
Proof.
  rewrite list_products_run.
  destruct (truthy (args_get request "name")); [reflexivity |].
  destruct (truthy (args_get request "category")) as [y |].
  - destruct (getattr_Category y); reflexivity.
  - destruct (truthy (args_get request "available")); reflexivity.
Qed.

Lemma step_store_ok (w w' : World) :
  step w w' -> store_ok (db w) = true -> store_ok (db w') = true.
Proof.
  intros Hstep Hok. destruct Hstep as [request w | request w | k w | request k w | k w].
  - destruct (lookup "Content-Type" (headers request)) as [value |] eqn:Eh.
    + destruct (String.eqb_spec value "application/json") as [-> | Hne].
      * rewrite (create_products_run _ _ Eh).
        destruct (json_body request) as [data |]; [| exact Hok].
        simpl. destruct (deserialize None data) as [p | e]; [| exact Hok].
        exact (store_ok_create p w Hok).
      * unfold create_products, check_content_type. rewrite Eh.
        apply String.eqb_neq in Hne. rewrite Hne. exact Hok.
    + unfold create_products, check_content_type. rewrite Eh. exact Hok.
  - rewrite list_products_db. exact Hok.
  - rewrite get_products_run. exact Hok.
  - destruct (lookup "Content-Type" (headers request)) as [value |] eqn:Eh.
    + destruct (String.eqb_spec value "application/json") as [-> | Hne].
      * rewrite (update_products_run _ _ _ Eh).
        destruct (stored w k) as [p |] eqn:Ep; [| exact Hok].
        destruct (json_body request) as [data |]; [| exact Hok].
        simpl. destruct (deserialize (id p) data) as [p' | e] eqn:Ed.
        -- destruct (deserialize_fields _ _ _ Ed) as [Hid _].
           rewrite (find_has_id _ _ _ Ep) in Hid.
           exact (store_ok_update p' k w Hid (stored_below_next w k p Hok Ep) Hok).
        -- destruct e; exact Hok.
      * unfold update_products, check_content_type. rewrite Eh.
        apply String.eqb_neq in Hne. rewrite Hne. exact Hok.
    + unfold update_products, check_content_type. rewrite Eh. exact Hok.
  - rewrite delete_products_run.
    destruct (stored w k) as [p |]; [| exact Hok].
    exact (store_ok_delete p w Hok).
Qed.

(** Every state the handlers lead to from the empty service keeps the
    stored ids below the next id. *)
Lemma reachable_store_ok (w : World) : reachable w -> store_ok (db w) = true.
Proof.
  induction 1 as [| w w' _ IH Hstep]; [reflexivity |].
  exact (step_store_ok w w' Hstep IH).
Qed.

(** C4. In every state of the service, for a payload that deserializes,
    posted with Content-Type application/json, the create handler returns 201
    with the serialized created entity: the payload's fields under the newly
    assigned id, which the body carries.  A read by that id then returns 200
    with the same serialized entity. *)
Theorem create_products_then_read
    (request : Request) (w : World) (data : json) (p : Product) :
  reachable w ->
  lookup "Content-Type" (headers request) = Some "application/json" ->
  json_body request = Some data ->
  deserialize None data = Return p ->
  let new_id := next_id (db w) in
  let entity := with_id (Some new_id) p in
  let w1 := snd (create_products request w) in
  fst (create_products request w) = Return (created entity) /\
  json_get (body (created entity)) "id" = Some (JInt new_id) /\
  deserialize (Some new_id) data = Return entity /\
  stored w1 new_id = Some entity /\
  fst (get_products new_id w1) = Return (ok entity) /\
  body (ok entity) = body (created entity).
Proof.
  intros Hreach Hheader Hbody Hvalid new_id entity w1.
  destruct (create_products_fresh request w data p Hheader Hbody Hvalid
              (reachable_store_ok w Hreach)) as [Hcreated Hstored].
  split; [exact Hcreated |].
  split; [reflexivity |].
  split; [exact (deserialize_with_id None (Some new_id) data p Hvalid) |].
  split; [exact Hstored |].
  split; [| reflexivity].
  rewrite get_products_run. unfold w1, new_id. rewrite Hstored. reflexivity.
Qed.

End Properties.

(** * Further properties of the handlers *)

Section Further.
Context {decl : ModelsDecl}.

Lemma content_type_dec (request : Request) (content_type : string) :
  {lookup "Content-Type" (headers request) = Some content_type} +
  {lookup "Content-Type" (headers request) <> Some content_type}.
Proof.
  destruct (lookup "Content-Type" (headers request)) as [value |].
  - destruct (String.string_dec value content_type) as [-> | Hne].
    + left. reflexivity.
    + right. congruence.
  - right. discriminate.
Qed.

Lemma same_row_id (p r : Product) : same_row p r = true -> id p = id r.
Proof.
  unfold same_row, has_id.
  destruct (id p) as [i |]; [| discriminate].
  destruct (id r) as [j |]; [| discriminate].
  intros Heq. apply Z.eqb_eq in Heq. now subst j.
Qed.

Lemma create_products_refused (request : Request) (w : World) :
  lookup "Content-Type" (headers request) <> Some "application/json" ->
  fst (create_products request w) = unsupported_media_type "application/json" /\
  db (snd (create_products request w)) = db w.
Proof.
  intros Hheader. unfold create_products, check_content_type.
  destruct (lookup "Content-Type" (headers request)) as [value |].
  - destruct (String.eqb_spec value "application/json") as [-> | _].
    + exfalso. apply Hheader. reflexivity.
    + split; reflexivity.
  - split; reflexivity.
Qed.

Lemma update_products_refused (request : Request) (product_id : Z) (w : World) :
  lookup "Content-Type" (headers request) <> Some "application/json" ->
  fst (update_products request product_id w) = unsupported_media_type "application/json" /\
  db (snd (update_products request product_id w)) = db w.
Proof.
  intros Hheader. unfold update_products, check_content_type.
  destruct (lookup "Content-Type" (headers request)) as [value |].
  - destruct (String.eqb_spec value "application/json") as [-> | _].
    + exfalso. apply Hheader. reflexivity.
    + split; reflexivity.
  - split; reflexivity.
Qed.

(** X1. The GET handlers never write: the health check answers 200 with
    the message OK in every state and leaves the whole state as it was, and
    listing and reading leave the store as it was, whatever the request,
    also when the category lookup raises. *)
Theorem get_handlers_leave_store (request : Request) (product_id : Z) (w : World) :
  (exists r, healthcheck w = (Return r, w) /\ status_code r = 200 /\
             json_get (body r) "message" = Some (JStr "OK")) /\
  db (snd (list_products request w)) = db w /\
  db (snd (get_products product_id w)) = db w.
Proof.
  split; [| split].
  - eexists. repeat split; reflexivity.
  - apply list_products_db.
  - rewrite get_products_run. reflexivity.
Qed.

(** X2. A writing handler changes the store only when it answers with its
    success status.  Create either answers 201 and appends the one created
    entity, or raises and leaves the store as it was; update answers 200 or
    leaves the store as it was; delete never raises, and answers 204 or
    answers 404 with the store as it was. *)
Theorem writes_only_on_success (request : Request) (product_id : Z) (w : World) :
  ((exists p, fst (create_products request w) = Return (created p) /\
              rows (db (snd (create_products request w))) = (rows (db w) ++ [p])%list /\
              next_id (db (snd (create_products request w))) = next_id (db w) + 1) \/
   ((exists e, fst (create_products request w) = Raise e) /\
    db (snd (create_products request w)) = db w)) /\
  ((exists p, fst (update_products request product_id w) = Return (ok p)) \/
   db (snd (update_products request product_id w)) = db w) /\
  (fst (delete_products product_id w) = Return no_content \/
   (fst (delete_products product_id w) = Return not_found /\
    db (snd (delete_products product_id w)) = db w)).
Proof.
  split; [| split].
  - destruct (content_type_dec request "application/json") as [Hheader | Hheader].
    + rewrite (create_products_run _ _ Hheader).
      destruct (json_body request) as [data |]; [| right; split; [eexists |]; reflexivity].
      simpl. destruct (deserialize None data) as [p | e].
      * left. eexists. repeat split; reflexivity.
      * right. split; [eexists |]; reflexivity.
    + right. destruct (create_products_refused request w Hheader) as [Hfst Hdb].
      split; [eexists; exact Hfst | exact Hdb].
  - destruct (content_type_dec request "application/json") as [Hheader | Hheader].
    + rewrite (update_products_run _ _ _ Hheader).
      destruct (stored w product_id) as [p |]; [| right; reflexivity].
      destruct (json_body request) as [data |]; [| right; reflexivity].
      simpl. destruct (deserialize (id p) data) as [p' | e].
      * left. eexists. reflexivity.
      * right. destruct e; reflexivity.
    + right. apply (update_products_refused request product_id w Hheader).
  - rewrite delete_products_run.
    destruct (stored w product_id); [left | right; split]; reflexivity.
Qed.

(** X3. Update never adds or removes a row and never moves the id counter;
    delete never adds a row: what is stored after it was stored before, and
    the id counter stays. *)
Theorem update_delete_frame (request : Request) (product_id : Z) (w : World) :
  (length (rows (db (snd (update_products request product_id w)))) = length (rows (db w)) /\
   map id (rows (db (snd (update_products request product_id w)))) = map id (rows (db w)) /\
   next_id (db (snd (update_products request product_id w))) = next_id (db w)) /\
  (incl (rows (db (snd (delete_products product_id w)))) (rows (db w)) /\
   next_id (db (snd (delete_products product_id w))) = next_id (db w)).
Proof.
  split.
  - destruct (content_type_dec request "application/json") as [Hheader | Hheader].
    + rewrite (update_products_run _ _ _ Hheader).
      destruct (stored w product_id) as [p |]; [| repeat split; reflexivity].
      destruct (json_body request) as [data |]; [| repeat split; reflexivity].
      simpl. destruct (deserialize (id p) data) as [p' | e].
      * simpl. split; [apply length_map | split; [| reflexivity]].
        rewrite map_map. apply map_ext. intros r.
        destruct (same_row p' r) eqn:E; [| reflexivity].
        exact (same_row_id p' r E).
      * destruct e; repeat split; reflexivity.
    + destruct (update_products_refused request product_id w Hheader) as [_ Hdb].
      rewrite Hdb. repeat split; reflexivity.
  - rewrite delete_products_run.
    destruct (stored w product_id) as [p |]; simpl.
    + split; [| reflexivity]. intros r Hr. apply filter_In in Hr. apply Hr.
    + split; [apply incl_refl | reflexivity].
Qed.

Lemma deserialize_raise_any_id (i j : option Z) (data : json) (e : exn) :
  deserialize i data = Raise e -> deserialize j data = Raise e.
Proof.
  unfold deserialize.
  repeat match goal with
         | |- context [match required ?f ?o with Return _ => _ | Raise _ => _ end] =>
             destruct (required f o); [| intros Heq; exact Heq]
         end.
  discriminate.
Qed.

(** X4. A decoded body that fails deserialization is treated differently by
    the two writing handlers: create has no handler for the error, so it
    propagates as raised and nothing is stored, while update, for any
    existing id, answers 400 with the empty object. *)
Theorem create_propagates_update_catches
    (request : Request) (w : World) (data : json) (e : exn) :
  lookup "Content-Type" (headers request) = Some "application/json" ->
  json_body request = Some data ->
  deserialize None data = Raise e ->
  fst (create_products request w) = Raise e /\
  db (snd (create_products request w)) = db w /\
  (forall k p, stored w k = Some p ->
     fst (update_products request k w) = Return bad_request).
Proof.
  intros Hheader Hbody Hfail. split; [| split].
  - rewrite (create_products_run _ _ Hheader), Hbody. simpl. rewrite Hfail. reflexivity.
  - rewrite (create_products_run _ _ Hheader), Hbody. simpl. rewrite Hfail. reflexivity.
  - intros k p Hfound.
    rewrite (update_products_run _ _ _ Hheader), Hfound, Hbody. simpl.
    rewrite (deserialize_raise_any_id None (id p) data e Hfail).
    destruct (deserialize_raises _ _ _ Hfail) as [field ->]. reflexivity.
Qed.

(** X5. The order of the checks in update, and what its handler lets
    through: with the required Content-Type and a body that does not decode,
    create and an update of an existing id both end in the HTTP exception of
    code 400 that [get_json] raises, which [except TypeError] does not
    catch; an update of an id that is not stored answers 404 before the body
    is looked at.  The store is left as it was. *)
Theorem undecodable_body_aborts (request : Request) (product_id : Z) (w : World) :
  lookup "Content-Type" (headers request) = Some "application/json" ->
  json_body request = None ->
  (exists description,
     fst (create_products request w) = Raise (HTTPException 400 description)) /\
  (forall p, stored w product_id = Some p ->
     exists description,
       fst (update_products request product_id w) = Raise (HTTPException 400 description)) /\
  (stored w product_id = None ->
     fst (update_products request product_id w) = Return not_found) /\
  db (snd (create_products request w)) = db w /\
  db (snd (update_products request product_id w)) = db w.
Proof.
  intros Hheader Hbody.
  rewrite (create_products_run _ _ Hheader), (update_products_run _ _ _ Hheader), Hbody.
  split; [eexists; reflexivity | split; [| split; [| split]]].
  - intros p ->. eexists. reflexivity.
  - intros ->. reflexivity.
  - reflexivity.
  - destruct (stored w product_id); reflexivity.
Qed.

Lemma update_products_done
    (request : Request) (product_id : Z) (w : World)
    (existing updated : Product) (data : json) :
  lookup "Content-Type" (headers request) = Some "application/json" ->
  stored w product_id = Some existing ->
  json_body request = Some data ->
  deserialize (id existing) data = Return updated ->
  update_products request product_id w =
    (Return (ok updated),
     with_db (log_info "Request to Update a product with id [%s]" [ArgInt product_id] w)
       {| rows := map (fun r => if same_row updated r then updated else r) (rows (db w));
          next_id := next_id (db w) |}) /\
  id updated = Some product_id /\
  stored (snd (update_products request product_id w)) product_id = Some updated.
Proof.
  intros Hheader Hfound Hbody Hvalid.
  assert (Hid : id updated = Some product_id).
  { destruct (deserialize_fields _ _ _ Hvalid) as [Hkeep _].
    rewrite Hkeep. exact (find_has_id _ _ _ Hfound). }
  assert (Hrun : update_products request product_id w =
    (Return (ok updated),
     with_db (log_info "Request to Update a product with id [%s]" [ArgInt product_id] w)
       {| rows := map (fun r => if same_row updated r then updated else r) (rows (db w));
          next_id := next_id (db w) |})).
  { rewrite (update_products_run _ _ _ Hheader), Hfound, Hbody, Hvalid. reflexivity. }
  split; [exact Hrun | split; [exact Hid |]].
  rewrite Hrun. exact (find_updated updated existing product_id _ Hid Hfound).
Qed.

(** X6. Update then read: after an update answered 200, a read of the same
    id answers 200 with the very body the update returned. *)
Theorem update_then_read
    (request : Request) (product_id : Z) (w : World)
    (existing updated : Product) (data : json) :
  lookup "Content-Type" (headers request) = Some "application/json" ->
  stored w product_id = Some existing ->
  json_body request = Some data ->
  deserialize (id existing) data = Return updated ->
  fst (update_products request product_id w) = Return (ok updated) /\
  fst (get_products product_id (snd (update_products request product_id w))) =
    Return (ok updated).
Proof.
  intros Hheader Hfound Hbody Hvalid.
  destruct (update_products_done request product_id w existing updated data
              Hheader Hfound Hbody Hvalid) as (Hrun & _ & Hstored).
  split; [rewrite Hrun; reflexivity |].
  rewrite get_products_run, Hstored. reflexivity.
Qed.

(** X7. Update is idempotent: sending the same accepted update a second
    time gives the same answer and leaves the store as the first left it. *)
Theorem update_idempotent
    (request : Request) (product_id : Z) (w : World)
    (existing updated : Product) (data : json) :
  lookup "Content-Type" (headers request) = Some "application/json" ->
  stored w product_id = Some existing ->
  json_body request = Some data ->
  deserialize (id existing) data = Return updated ->
  let w1 := snd (update_products request product_id w) in
  fst (update_products request product_id w1) = fst (update_products request product_id w) /\
  db (snd (update_products request product_id w1)) = db w1.
Proof.
  intros Hheader Hfound Hbody Hvalid w1.
  destruct (update_products_done request product_id w existing updated data
              Hheader Hfound Hbody Hvalid) as (Hrun & Hid & Hstored).
  fold w1 in Hstored.
  assert (Hagain : deserialize (id updated) data = Return updated).
  { rewrite Hid, <- (find_has_id _ _ _ Hfound). exact Hvalid. }
  destruct (update_products_done request product_id w1 updated updated data
              Hheader Hstored Hbody Hagain) as (Hrun1 & _ & _).
  rewrite Hrun1. split; [rewrite Hrun; reflexivity |].
  unfold w1. rewrite Hrun. simpl. f_equal.
  rewrite map_map. apply map_ext. intros r.
  destruct (same_row updated r) eqn:E; [| now rewrite E].
  unfold same_row. rewrite Hid. unfold has_id. rewrite Hid, Z.eqb_refl. reflexivity.
Qed.

(** ** The catalogue invariant *)

Lemma row_ok_mono (m n : Z) (r : Product) : m <= n -> row_ok m r -> row_ok n r.
Proof.
  intros Hmn [[i [Hid Hlt]] Hrest]. split; [| exact Hrest].
  exists i. split; [exact Hid | lia].
Qed.

Lemma NoDup_map_filter {A B : Type} (g : A -> B) (f : A -> bool) (l : list A) :
  NoDup (map g l) -> NoDup (map g (filter f l)).
Proof.
  induction l as [| a l IH]; simpl; [auto |].
  intros Hnd. apply NoDup_cons_iff in Hnd. destruct Hnd as [Hnotin Hnd].
  destruct (f a); simpl; [| exact (IH Hnd)].
  constructor; [| exact (IH Hnd)].
  intros Hin. apply Hnotin. apply in_map_iff in Hin. destruct Hin as [x [Hx Hf]].
  apply filter_In in Hf. apply in_map_iff. exists x. split; [exact Hx | apply Hf].
Qed.

Lemma map_id_updated (p' : Product) (l : list Product) :
  map id (map (fun r => if same_row p' r then p' else r) l) = map id l.
Proof.
  rewrite map_map. apply map_ext. intros r.
  destruct (same_row p' r) eqn:E; [exact (same_row_id p' r E) | reflexivity].
Qed.

Lemma catalogue_ok_create (s : Store) (data : json) (p : Product) :
  catalogue_ok s ->
  deserialize None data = Return p ->
  catalogue_ok {| rows := rows s ++ [with_id (Some (next_id s)) p];
                  next_id := next_id s + 1 |}.
Proof.
  intros [Hnd Hall] Hvalid. unfold catalogue_ok. simpl.
  destruct (deserialize_fields _ _ _ Hvalid) as (_ & _ & Hname & _ & _ & _ & _ & Hcat).
  split.
  - rewrite map_app. apply NoDup_app; [exact Hnd | repeat constructor; intros [] |].
    intros a Ha [Heq | []]. simpl in Heq. subst a.
    apply in_map_iff in Ha. destruct Ha as [r [Hr Hin]].
    rewrite Forall_forall in Hall. destruct (Hall r Hin) as [[i [Hid Hlt]] _].
    rewrite Hid in Hr. inversion Hr. lia.
  - apply Forall_app. split.
    + apply Forall_impl with (P := row_ok (next_id s)); [| exact Hall].
      intros r. apply row_ok_mono. lia.
    + constructor; [| constructor]. split; [| split; assumption].
      exists (next_id s). split; [reflexivity | lia].
Qed.

Lemma catalogue_ok_update (s : Store) (k : Z) (existing p' : Product) (data : json) :
  catalogue_ok s ->
  find (has_id k) (rows s) = Some existing ->
  deserialize (id existing) data = Return p' ->
  catalogue_ok {| rows := map (fun r => if same_row p' r then p' else r) (rows s);
                  next_id := next_id s |}.
Proof.
  intros [Hnd Hall] Hfound Hvalid. unfold catalogue_ok. simpl.
  destruct (deserialize_fields _ _ _ Hvalid) as (Hkeep & _ & Hname & _ & _ & _ & _ & Hcat).
  assert (Hp' : row_ok (next_id s) p').
  { split; [| split; assumption]. rewrite Hkeep.
    apply find_some in Hfound. destruct Hfound as [Hin _].
    rewrite Forall_forall in Hall. apply (Hall existing Hin). }
  split.
  - rewrite map_id_updated. exact Hnd.
  - rewrite Forall_forall in *. intros r Hr.
    apply in_map_iff in Hr. destruct Hr as [r0 [Hr0 Hin]].
    destruct (same_row p' r0); subst r; [exact Hp' | exact (Hall r0 Hin)].
Qed.

Lemma catalogue_ok_delete (s : Store) (p : Product) :
  catalogue_ok s ->
  catalogue_ok {| rows := filter (fun r => negb (same_row p r)) (rows s);
                  next_id := next_id s |}.
Proof.
  intros [Hnd Hall]. unfold catalogue_ok. simpl. split.
  - apply NoDup_map_filter. exact Hnd.
  - rewrite Forall_forall in *. intros r Hr. apply filter_In in Hr. apply Hall, Hr.
Qed.

Lemma step_catalogue_ok (w w' : World) :
  step w w' -> catalogue_ok (db w) -> catalogue_ok (db w').
Proof.
  intros Hstep Hok. destruct Hstep as [request w | request w | k w | request k w | k w].
  - destruct (content_type_dec request "application/json") as [Hheader | Hheader].
    + rewrite (create_products_run _ _ Hheader).
      destruct (json_body request) as [data |]; [| exact Hok].
      simpl. destruct (deserialize None data) as [p | e] eqn:E; [| exact Hok].
      exact (catalogue_ok_create (db w) data p Hok E).
    + destruct (create_products_refused request w Hheader) as [_ Hdb].
      rewrite Hdb. exact Hok.
  - rewrite list_products_db. exact Hok.
  - rewrite get_products_run. exact Hok.
  - destruct (content_type_dec request "application/json") as [Hheader | Hheader].
    + rewrite (update_products_run _ _ _ Hheader).
      destruct (stored w k) as [p |] eqn:Ep; [| exact Hok].
      destruct (json_body request) as [data |]; [| exact Hok].
      simpl. destruct (deserialize (id p) data) as [p' | e] eqn:Ed.
      * exact (catalogue_ok_update (db w) k p p' data Hok Ep Ed).
      * destruct e; exact Hok.
    + destruct (update_products_refused request k w Hheader) as [_ Hdb].
      rewrite Hdb. exact Hok.
  - rewrite delete_products_run.
    destruct (stored w k) as [p |]; [| exact Hok].
    exact (catalogue_ok_delete (db w) p Hok).
Qed.

Lemma reachable_invariant (w : World) : reachable w -> catalogue_ok (db w).
Proof.
  induction 1 as [| w w' _ IH Hstep].
  - split; [constructor | constructor].
  - exact (step_catalogue_ok w w' Hstep IH).
Qed.

(** X8. The data-model invariants hold in every state the handlers reach
    from the empty service: no two persisted Products share an id, and each
    has an id below the next one the store assigns, a non-empty name and a
    category of the enumeration. *)
Theorem reachable_catalogue_ok (w : World) :
  reachable w ->
  NoDup (map id (rows (db w))) /\
  (forall r, In r (rows (db w)) ->
     (exists i, id r = Some i /\ i < next_id (db w)) /\
     name r <> "" /\
     In (category r) Category_names).
Proof.
  intros Hreach.
  destruct (reachable_invariant w Hreach) as [Hnd Hall]. split; [exact Hnd |].
  rewrite Forall_forall in Hall. exact Hall.
Qed.

Lemma find_unique (k : Z) (l : list Product) (p : Product) :
  NoDup (map id l) -> In p l -> id p = Some k -> find (has_id k) l = Some p.
Proof.
  induction l as [| r l IH]; simpl; [contradiction |].
  intros Hnd Hin Hid. apply NoDup_cons_iff in Hnd. destruct Hnd as [Hnotin Hnd].
  destruct Hin as [-> | Hin].
  - unfold has_id. rewrite Hid, Z.eqb_refl. reflexivity.
  - destruct (has_id k r) eqn:E; [| exact (IH Hnd Hin Hid)].
    exfalso. apply Hnotin. apply in_map_iff. exists p. split; [| exact Hin].
    unfold has_id in E. destruct (id r) as [i |]; [| discriminate].
    apply Z.eqb_eq in E. subst i. exact Hid.
Qed.

Lemma truthy_nonempty (text : string) : text <> "" -> truthy (Some text) = Some text.
Proof.
  intros Hne. simpl. destruct (String.eqb_spec text "") as [Heq | _];
    [contradiction | reflexivity].
Qed.

(** X9. What is persisted can be found.  In every reachable state a
    persisted Product is returned, with 200, by a read of its id; it is in
    the 200 answer of every listing that carries its name; and it is in the
    200 answer of every listing that carries its category and no non-empty
    name, the category being a non-empty text: that lookup never raises. *)
Theorem persisted_is_found (w : World) (p : Product) :
  reachable w ->
  In p (rows (db w)) ->
  (exists i, id p = Some i /\ fst (get_products i w) = Return (ok p)) /\
  (forall request, args_get request "name" = Some (name p) ->
     exists items, fst (list_products request w) = Return (list_response items) /\
                   In p items) /\
  (forall request, truthy (args_get request "name") = None ->
     args_get request "category" = Some (category p) ->
     category p <> "" ->
     exists items, fst (list_products request w) = Return (list_response items) /\
                   In p items).
Proof.
  intros Hreach Hin.
  destruct (reachable_invariant w Hreach) as [Hnd Hall].
  rewrite Forall_forall in Hall.
  destruct (Hall p Hin) as ([i [Hid _]] & Hname & Hcat).
  split; [| split].
  - exists i. split; [exact Hid |].
    rewrite get_products_run. unfold stored.
    rewrite (find_unique i _ p Hnd Hin Hid). reflexivity.
  - intros request Hrequest. exists (filter (by_name (name p)) (rows (db w))).
    rewrite list_products_run, Hrequest, (truthy_nonempty _ Hname). split; [reflexivity |].
    apply filter_In. split; [exact Hin | apply String.eqb_refl].
  - intros request Hnoname Hrequest Hnonempty. unfold Category in *.
    exists (filter (by_category (category p)) (rows (db w))).
    rewrite list_products_run, Hnoname, Hrequest, (truthy_nonempty _ Hnonempty),
      (getattr_Category_member _ Hcat).
    split; [reflexivity |].
    apply filter_In. split; [exact Hin | apply String.eqb_refl].
Qed.

Lemma filter_other_rows (p : Product) (k : Z) (l : list Product) :
  id p = Some k ->
  (forall r, In r l -> id r <> Some k) ->
  filter (fun r => negb (same_row p r)) l = l.
Proof.
  intros Hid Hothers. apply forallb_filter_id. apply forallb_forall. intros r Hr.
  rewrite (same_row_has_id p r k Hid). unfold has_id.
  destruct (id r) as [j |] eqn:Ej; [| reflexivity].
  destruct (Z.eqb_spec j k) as [-> | _]; [| reflexivity].
  exfalso. exact (Hothers r Hr Ej).
Qed.

Lemma delete_one_row (p : Product) (k : Z) (l : list Product) :
  NoDup (map id l) -> In p l -> id p = Some k ->
  S (length (filter (fun r => negb (same_row p r)) l)) = length l.
Proof.
  intros Hnd Hin Hid. induction l as [| r l IH]; simpl; [contradiction |].
  simpl in Hnd. apply NoDup_cons_iff in Hnd. destruct Hnd as [Hnotin Hnd].
  rewrite (same_row_has_id p r k Hid).
  destruct (has_id k r) eqn:E; simpl.
  - f_equal. f_equal. apply (filter_other_rows p k l Hid).
    intros r' Hr' Hid'. apply Hnotin. apply in_map_iff. exists r'. split; [| exact Hr'].
    unfold has_id in E. destruct (id r) as [j |]; [| discriminate].
    apply Z.eqb_eq in E. subst j. exact Hid'.
  - f_equal. apply IH; [exact Hnd |].
    destruct Hin as [-> | Hin]; [| exact Hin].
    unfold has_id in E. rewrite Hid, Z.eqb_refl in E. discriminate.
Qed.

(** X10. In every reachable state a delete answered 204 removes exactly one
    row: the one stored under the id; every other row is still there. *)
Theorem delete_removes_one (product_id : Z) (w : World) (p : Product) :
  reachable w ->
  stored w product_id = Some p ->
  let w1 := snd (delete_products product_id w) in
  fst (delete_products product_id w) = Return no_content /\
  S (length (rows (db w1))) = length (rows (db w)) /\
  ~ In p (rows (db w1)) /\
  (forall r, In r (rows (db w)) -> r <> p -> In r (rows (db w1))).
Proof.
  intros Hreach Hfound w1.
  destruct (reachable_invariant w Hreach) as [Hnd _].
  pose proof (find_has_id _ _ _ Hfound) as Hid.
  assert (Hin : In p (rows (db w))).
  { unfold stored in Hfound. apply find_some in Hfound. apply Hfound. }
  unfold w1. rewrite delete_products_run, Hfound. simpl.
  split; [reflexivity | split; [exact (delete_one_row p product_id _ Hnd Hin Hid) | split]].
  - intros Hstill. apply filter_In in Hstill. destruct Hstill as [_ Hkept].
    unfold same_row in Hkept. rewrite Hid in Hkept. unfold has_id in Hkept.
    rewrite Hid, Z.eqb_refl in Hkept. discriminate.
  - intros r Hr Hne. apply filter_In. split; [exact Hr |].
    rewrite (same_row_has_id p r product_id Hid).
    destruct (has_id product_id r) eqn:E; [| reflexivity].
    exfalso. apply Hne.
    assert (Hrid : id r = Some product_id).
    { unfold has_id in E. destruct (id r) as [j |]; [| discriminate].
      apply Z.eqb_eq in E. now subst j. }
    pose proof (find_unique product_id _ r Hnd Hr Hrid) as Hr'.
    unfold stored in Hfound. congruence.
Qed.

(** X11. Create then delete: in every reachable state, deleting the id a
    create has just returned answers 204 and brings the rows back to what
    they were before the create, while the id counter has moved on, so the
    id is not assigned again. *)
Theorem create_then_delete
    (request : Request) (w : World) (data : json) (p : Product) :
  reachable w ->
  lookup "Content-Type" (headers request) = Some "application/json" ->
  json_body request = Some data ->
  deserialize None data = Return p ->
  let new_id := next_id (db w) in
  let w1 := snd (create_products request w) in
  let w2 := snd (delete_products new_id w1) in
  fst (delete_products new_id w1) = Return no_content /\
  rows (db w2) = rows (db w) /\
  next_id (db w2) = new_id + 1 /\
  fst (get_products new_id w2) = Return not_found.
Proof.
  intros Hreach Hheader Hbody Hvalid new_id w1 w2.
  pose proof (reachable_store_ok w Hreach) as Hok.
  destruct (create_products_fresh request w data p Hheader Hbody Hvalid Hok)
    as [_ Hstored].
  fold new_id in Hstored. fold w1 in Hstored.
  assert (Hw1 : db w1 = {| rows := rows (db w) ++ [with_id (Some new_id) p];
                           next_id := new_id + 1 |}).
  { unfold w1. rewrite (create_products_run _ _ Hheader), Hbody. simpl.
    rewrite Hvalid. reflexivity. }
  assert (Hrows : rows (db w2) = rows (db w)).
  { unfold w2. rewrite delete_products_run, Hstored. simpl. rewrite Hw1. simpl.
    assert (Hself : same_row (with_id (Some new_id) p) (with_id (Some new_id) p) = true).
    { unfold same_row, has_id. simpl. apply Z.eqb_refl. }
    rewrite filter_app. simpl. rewrite Hself. simpl. rewrite app_nil_r.
    apply (filter_other_rows (with_id (Some new_id) p) new_id); [reflexivity |].
    intros r Hr Hid. unfold store_ok in Hok. rewrite forallb_forall in Hok.
    specialize (Hok r Hr). rewrite Hid in Hok. apply Z.ltb_lt in Hok. unfold new_id in Hok.
    lia. }
  split; [unfold w2; rewrite delete_products_run, Hstored; reflexivity |].
  split; [exact Hrows | split].
  - unfold w2. rewrite delete_products_run, Hstored. simpl. rewrite Hw1. reflexivity.
  - rewrite get_products_run. unfold stored. rewrite Hrows.
    rewrite (find_fresh new_id _ Hok). reflexivity.
Qed.

(** ** Posting a batch *)

Lemma post_one (data : json) (w : World) :
  db (snd (create_products (json_request data) w)) =
    match deserialize None data with
    | Return p =>
        {| rows := rows (db w) ++ [with_id (Some (next_id (db w))) p];
           next_id := next_id (db w) + 1 |}
    | Raise _ => db w
    end.
Proof.
  rewrite (create_products_run (json_request data) w eq_refl). simpl.
  destruct (deserialize None data); reflexivity.
Qed.

Lemma post_all_db (payloads : list json) (w : World) :
  rows (db (post_all payloads w)) = (rows (db w) ++ entities (next_id (db w)) payloads)%list /\
  next_id (db (post_all payloads w)) =
    next_id (db w) + Z.of_nat (length (entities (next_id (db w)) payloads)).
Proof.
  revert w. induction payloads as [| data rest IH]; intros w; simpl.
  - rewrite app_nil_r. split; [reflexivity | lia].
  - destruct (IH (snd (create_products (json_request data) w))) as [Hrows Hnext].
    rewrite Hrows, Hnext, post_one.
    destruct (deserialize None data) as [p | e] eqn:E.
    + rewrite (deserialize_with_id None (Some (next_id (db w))) data p E). simpl.
      rewrite <- app_assoc. simpl. split; [reflexivity | lia].
    + rewrite (deserialize_raise_any_id None (Some (next_id (db w))) data e E).
      split; reflexivity.
Qed.

Lemma entities_all (payloads : list json) (n : Z) :
  forallb deserializes payloads = true ->
  length (entities n payloads) = length payloads.
Proof.
  revert n. induction payloads as [| data rest IH]; intros n; simpl; [reflexivity |].
  intros Hall. apply andb_prop in Hall. destruct Hall as [Hdata Hrest].
  unfold deserializes in Hdata.
  destruct (deserialize None data) as [p | e] eqn:E; [| discriminate].
  rewrite (deserialize_with_id None (Some n) data p E). simpl.
  f_equal. exact (IH (n + 1) Hrest).
Qed.


Lemma filter_entities
    (on_row : Product -> bool) (on_payload : json -> bool) (payloads : list json) (n : Z) :
  (forall i data p, deserialize i data = Return p -> on_row p = on_payload data) ->
  forallb deserializes payloads = true ->
  length (filter on_row (entities n payloads)) = length (filter on_payload payloads).
Proof.
  intros Hsame. revert n.
  induction payloads as [| data rest IH]; intros n; simpl; [reflexivity |].
  intros Hall. apply andb_prop in Hall. destruct Hall as [Hdata Hrest].
  unfold deserializes in Hdata.
  destruct (deserialize None data) as [p | e] eqn:E; [| discriminate].
  pose proof (deserialize_with_id None (Some n) data p E) as En.
  rewrite En. simpl. rewrite (Hsame _ _ _ En).
  destruct (on_payload data); simpl; [f_equal |]; exact (IH (n + 1) Hrest).
Qed.

Lemma by_name_payload (name_ : string) (i : option Z) (data : json) (p : Product) :
  deserialize i data = Return p -> by_name name_ p = payload_named name_ data.
Proof.
  intros Hp. destruct (deserialize_fields _ _ _ Hp) as (_ & Hname & _).
  unfold by_name, payload_named. rewrite Hname. reflexivity.
Qed.

Lemma by_category_payload (category_ : string) (i : option Z) (data : json) (p : Product) :
  deserialize i data = Return p -> by_category category_ p = payload_in_category category_ data.
Proof.
  intros Hp. destruct (deserialize_fields _ _ _ Hp) as (_ & _ & _ & _ & _ & _ & Hcategory & _).
  unfold by_category, payload_in_category. rewrite Hcategory. reflexivity.
Qed.

Lemma by_flag_payload (flag : bool) (i : option Z) (data : json) (p : Product) :
  deserialize i data = Return p -> by_flag flag p = payload_flagged flag data.
Proof.
  intros Hp. destruct (deserialize_fields _ _ _ Hp) as (_ & _ & _ & _ & _ & Havailable & _).
  unfold by_flag, payload_flagged. rewrite Havailable. reflexivity.
Qed.

(** X13. Listing after posting: when a batch of payloads that all
    deserialize has been posted to a service with no rows, the list without
    parameters answers 200 with one entity per payload: as many entities as
    payloads, and exactly the posted ones. *)
Theorem list_all_after_posting (payloads : list json) (w : World) :
  rows (db w) = [] ->
  forallb deserializes payloads = true ->
  exists items,
    fst (list_products (query []) (post_all payloads w)) = Return (list_response items) /\
    length items = length payloads /\
    (forall p, In p items <-> In p (entities (next_id (db w)) payloads)).
Proof.
  intros Hempty Hall.
  destruct (post_all_db payloads w) as [Hrows _]. rewrite Hempty in Hrows. simpl in Hrows.
  exists (rows (db (post_all payloads w))).
  split; [rewrite list_products_run; reflexivity |].
  rewrite Hrows. split; [exact (entities_all payloads _ Hall) | reflexivity].
Qed.

(** X14. Filtering after posting: when a batch of payloads that all
    deserialize has been posted to a service with no rows, a listing by a
    non-empty name answers 200 with as many entities as payloads carry that
    name; a listing by a category of the enumeration, with as many as
    payloads carry that category; a listing by a non-empty availability
    text, with as many as payloads carry the flag the text is read as. *)
Theorem filter_after_posting (payloads : list json) (w : World) (text : string) :
  rows (db w) = [] ->
  forallb deserializes payloads = true ->
  text <> "" ->
  let posted := entities (next_id (db w)) payloads in
  let w1 := post_all payloads w in
  (fst (list_products (query [("name", text)]) w1) =
     Return (list_response (filter (by_name text) posted)) /\
   length (filter (by_name text) posted) = length (filter (payload_named text) payloads)) /\
  (In text Category_names ->
   fst (list_products (query [("category", text)]) w1) =
     Return (list_response (filter (by_category text) posted)) /\
   length (filter (by_category text) posted) =
     length (filter (payload_in_category text) payloads)) /\
  (fst (list_products (query [("available", text)]) w1) =
     Return (list_response (filter (by_flag (boolean_of_text text)) posted)) /\
   length (filter (by_flag (boolean_of_text text)) posted) =
     length (filter (payload_flagged (boolean_of_text text)) payloads)).
Proof.
  intros Hempty Hall Htext posted w1.
  assert (Hrows : rows (db w1) = posted).
  { destruct (post_all_db payloads w) as [Hrows _]. rewrite Hempty in Hrows. exact Hrows. }
  pose proof (truthy_nonempty text Htext) as Htruthy.
  split; [| split].
  - split; [| exact (filter_entities _ _ payloads _ (by_name_payload text) Hall)].
    rewrite list_products_run. unfold args_get. simpl lookup.
    rewrite Htruthy. simpl. rewrite Hrows. reflexivity.
  - intros Hmember.
    split; [| exact (filter_entities _ _ payloads _ (by_category_payload text) Hall)].
    rewrite list_products_run. unfold args_get. simpl lookup.
    rewrite Htruthy, (getattr_Category_member text Hmember). simpl.
    rewrite Hrows. reflexivity.
  - split; [| exact (filter_entities _ _ payloads _
                       (by_flag_payload (boolean_of_text text)) Hall)].
    rewrite list_products_run. unfold args_get. simpl lookup.
    rewrite Htruthy. simpl. rewrite Hrows. reflexivity.
Qed.

Lemma filter_partition_length {A : Type} (f : A -> bool) (l : list A) :
  (length (filter f l) + length (filter (fun a => negb (f a)) l))%nat = length l.
Proof.
  induction l as [| a l IH]; simpl; [reflexivity |].
  destruct (f a); simpl; lia.
Qed.

(** X15. The two availability listings split the catalogue: for a text read
    as true and a text read as false, both non-empty, the two listings
    answer 200, no Product is in both, every persisted Product is in one of
    them, and their sizes add up to the size of the list of all. *)
Theorem availability_partition (w : World) (yes no : string) :
  yes <> "" -> no <> "" ->
  boolean_of_text yes = true ->
  boolean_of_text no = false ->
  exists available_ unavailable_,
    fst (list_products (query [("available", yes)]) w) =
      Return (list_response available_) /\
    fst (list_products (query [("available", no)]) w) =
      Return (list_response unavailable_) /\
    fst (list_products (query []) w) = Return (list_response (rows (db w))) /\
    (forall p, In p (rows (db w)) <-> In p available_ \/ In p unavailable_) /\
    (forall p, In p available_ -> ~ In p unavailable_) /\
    (length available_ + length unavailable_)%nat = length (rows (db w)).
Proof.
  intros Hyes Hno Hy Hn.
  exists (filter (by_flag true) (rows (db w))), (filter (by_flag false) (rows (db w))).
  split; [| split; [| split; [| split; [| split]]]].
  - rewrite list_products_run. unfold args_get. simpl lookup.
    rewrite (truthy_nonempty yes Hyes), Hy. reflexivity.
  - rewrite list_products_run. unfold args_get. simpl lookup.
    rewrite (truthy_nonempty no Hno), Hn. reflexivity.
  - rewrite list_products_run. reflexivity.
  - intros p. rewrite !filter_In. unfold by_flag.
    destruct (available p); simpl; intuition discriminate.
  - intros p. rewrite !filter_In. unfold by_flag.
    destruct (available p); simpl; intuition discriminate.
  - rewrite <- (filter_partition_length (by_flag true) (rows (db w))).
    f_equal. f_equal. apply filter_ext. intros p. unfold by_flag.
    destruct (available p); reflexivity.
Qed.

(** ** A serialized Product as payload *)

Lemma member_name_ok (c : string) : In c Category_names -> member_name c = Some c.
Proof.
  intros Hin. unfold member_name.
  replace (existsb (String.eqb c) Category_names) with true; [reflexivity |].
  symmetry. apply existsb_exists. exists c. split; [exact Hin | apply String.eqb_refl].
Qed.

(** The serialization of a postable Product deserializes to the same field
    values; the id the body carries is ignored and the id of the entity
    deserialized onto is kept. *)
Lemma deserialize_serialize (i : option Z) (p : Product) :
  postable p ->
  deserialize i (serialize p) = Return (with_id i p).
Proof.
  intros (Hname & Hcat & Hprice). unfold deserialize, serialize. simpl.
  unfold nonempty_text. destruct (String.eqb_spec (name p) "") as [Heq | _];
    [contradiction |].
  simpl. unfold description_of. simpl.
  assert (Hd : match json_of_description (description p) with
               | JNull => Some None
               | JStr s0 => Some (Some s0)
               | _ => None
               end = Some (description p)).
  { destruct (description p); reflexivity. }
  rewrite Hd. simpl. rewrite Hprice. simpl.
  rewrite (member_name_ok _ Hcat). reflexivity.
Qed.

(** X16. The flow of the create, read and update tests: in every reachable
    state, posting the serialization of a postable Product answers 201 with
    the Product's fields under the new id; a read of that id answers 200
    with the same body; and putting the serialization with another
    description to that id answers 200 with the new description and the
    other fields and the id as they were. *)
Theorem post_read_put_serialized (w : World) (p : Product) (d : option string) :
  reachable w ->
  postable p ->
  let new_id := next_id (db w) in
  let entity := with_id (Some new_id) p in
  let w1 := snd (create_products (json_request (serialize p)) w) in
  let changed := with_description d entity in
  fst (create_products (json_request (serialize p)) w) = Return (created entity) /\
  fst (get_products new_id w1) = Return (ok entity) /\
  fst (update_products (json_request (serialize changed)) new_id w1) = Return (ok changed) /\
  stored (snd (update_products (json_request (serialize changed)) new_id w1)) new_id =
    Some changed.
Proof.
  intros Hreach Hp new_id entity w1 changed.
  pose proof (reachable_store_ok w Hreach) as Hok.
  destruct (create_products_fresh (json_request (serialize p)) w (serialize p)
              (with_id None p) eq_refl eq_refl (deserialize_serialize None p Hp) Hok)
    as [Hcreated Hstored].
  change (with_id (Some (next_id (db w))) (with_id None p)) with entity in *.
  fold new_id in Hstored. fold w1 in Hstored.
  assert (Hchanged : postable changed) by exact Hp.
  destruct (update_products_done (json_request (serialize changed)) new_id w1
              entity changed (serialize changed) eq_refl Hstored eq_refl
              (deserialize_serialize (Some new_id) changed Hchanged))
    as (Hrun & _ & Hkept).
  split; [exact Hcreated | split; [| split; [| exact Hkept]]].
  - rewrite get_products_run, Hstored. reflexivity.
  - rewrite Hrun. reflexivity.
Qed.

(** ** The log *)

(** X17. Every product request is logged: whatever a products handler does
    with a request, answer or raise, it keeps what was logged before and
    appends to it, beginning with an INFO record. *)
Theorem handlers_append_to_log (w w' : World) :
  step w w' ->
  exists first rest,
    logged w' = (logged w ++ first :: rest)%list /\ levelname first = INFO.
Proof.
  intros Hstep. destruct Hstep as [request w | request w | k w | request k w | k w].
  - destruct (content_type_dec request "application/json") as [Hheader | Hheader].
    + rewrite (create_products_run _ _ Hheader).
      destruct (json_body request) as [data |]; [| log_grows].
      simpl. destruct (deserialize None data); log_grows.
    + unfold create_products, check_content_type.
      destruct (lookup "Content-Type" (headers request)) as [value |]; [| log_grows].
      destruct (String.eqb_spec value "application/json") as [-> | _]; [| log_grows].
      exfalso. apply Hheader. reflexivity.
  - rewrite list_products_run.
    destruct (truthy (args_get request "name")); [log_grows |].
    destruct (truthy (args_get request "category")) as [y |].
    + destruct (getattr_Category y); log_grows.
    + destruct (truthy (args_get request "available")); log_grows.
  - rewrite get_products_run. log_grows.
  - destruct (content_type_dec request "application/json") as [Hheader | Hheader].
    + rewrite (update_products_run _ _ _ Hheader).
      destruct (stored w k) as [p |]; [| log_grows].
      destruct (json_body request) as [data |]; [| log_grows].
      simpl. destruct (deserialize (id p) data) as [p' | e]; [log_grows |].
      destruct e; log_grows.
    + unfold update_products, check_content_type.
      destruct (lookup "Content-Type" (headers request)) as [value |]; [| log_grows].
      destruct (String.eqb_spec value "application/json") as [-> | _]; [| log_grows].
      exfalso. apply Hheader. reflexivity.
  - rewrite delete_products_run.
    destruct (stored w k); log_grows.
Qed.

End Further.

(** * Concrete runs *)

Lemma check_content_type_guard_witness :
  check_content_type (query []) "application/json" demo_world =
    (unsupported_media_type "application/json",
     log_error "No Content-Type specified." [] demo_world) /\
  check_content_type
    {| headers := [("Content-Type", "plain/text")]; args := []; json_body := None |}
    "application/json" demo_world =
    (unsupported_media_type "application/json",
     log_error "Invalid Content-Type: %s" [ArgStr "plain/text"] demo_world) /\
  check_content_type (json_request hat_payload) "application/json" demo_world =
    (Return tt, demo_world) /\
  fst (create_products (query []) demo_world) = unsupported_media_type "application/json" /\
  fst (update_products (query []) 1 demo_world) = unsupported_media_type "application/json".
Proof.
  pose proof (@check_content_type_guard demo_decl (query []) "application/json" demo_world)
    as (Habsent & _ & _ & Hwrite).
  pose proof (@check_content_type_guard demo_decl
    {| headers := [("Content-Type", "plain/text")]; args := []; json_body := None |}
    "application/json" demo_world) as (_ & Hdifferent & _).
  pose proof (@check_content_type_guard demo_decl (json_request hat_payload)
    "application/json" demo_world) as (_ & _ & Hequal & _).
  assert (Hquery : lookup "Content-Type" (headers (query [])) <> Some "application/json")
    by discriminate.
  split; [apply Habsent; reflexivity | split; [| split; [| split]]].
  - apply Hdifferent; [reflexivity | discriminate].
  - apply Hequal; reflexivity.
  - apply (Hwrite Hquery).
  - apply (Hwrite Hquery).
Defined.

(** The list handler on the demo catalogue: name wins over category and
    available, category over available, and with no parameter every
    Product is listed. *)
Lemma list_products_precedence_witness :
  list_products (query [("name", "Hat"); ("category", "FOOD"); ("available", "false")])
      demo_world =
    (Return (list_response [hat]), listed "[%s] Products final by name" [hat] demo_world) /\
  list_products (query [("category", "FOOD"); ("available", "true")]) demo_world =
    (Return (list_response [apple]),
     listed "[%s] Products final by category" [apple] demo_world) /\
  list_products (query [("available", "false")]) demo_world =
    (Return (list_response [apple]),
     listed "[%s] Products final by available" [apple] demo_world) /\
  list_products (query []) demo_world =
    (Return (list_response [hat; apple]),
     listed "[%s] Products final" [hat; apple] demo_world).
Proof.
  split; [| split; [| split]].
  - apply (proj1 (@list_products_precedence demo_decl
      (query [("name", "Hat"); ("category", "FOOD"); ("available", "false")]) demo_world)
      "Hat"). reflexivity.
  - apply (proj1 (proj2 (@list_products_precedence demo_decl
      (query [("category", "FOOD"); ("available", "true")]) demo_world)) "FOOD").
    + reflexivity.
    + reflexivity.
    + simpl. auto.
  - apply (proj1 (proj2 (proj2 (@list_products_precedence demo_decl
      (query [("available", "false")]) demo_world))) "false"); reflexivity.
  - apply (proj2 (proj2 (proj2 (@list_products_precedence demo_decl
      (query []) demo_world)))); reflexivity.
Defined.

(** C1 as stated fails on the code.  With [name=] (empty) and
    [category=FOOD] both supplied the handler applies the category filter,
    not the name filter; and with an unknown category the request ends in an
    exception instead of an HTTP 200 response. *)
Lemma list_products_precedence_counterexample :
  (fst (list_products (query [("name", ""); ("category", "FOOD")]) demo_world) =
     Return (list_response [apple]) /\
   fst (list_products (query [("name", ""); ("category", "FOOD")]) demo_world) <>
     Return (list_response (filter (by_name "") (rows (db demo_world))))) /\
  fst (list_products (query [("category", "TOYS"); ("available", "true")]) demo_world) =
    Raise (AttributeError "Category" "TOYS").
Proof.
  repeat split; try reflexivity.
  intros H. vm_compute in H. discriminate H.
Qed.

Lemma list_products_by_availability_witness :
  fst (list_products (query [("available", "true")]) demo_world) =
    Return (list_response [hat]) /\
  fst (list_products (query [("available", "false")]) demo_world) =
    Return (list_response [apple]) /\
  fst (list_products (query [("available", "True")]) demo_world) =
    Return (list_response [hat]).
Proof.
  assert (Htrue : "true" <> "") by discriminate.
  assert (Hfalse : "false" <> "") by discriminate.
  assert (HTrue : "True" <> "") by discriminate.
  pose proof (@list_products_by_availability demo_decl (query [("available", "true")])
                demo_world "true" eq_refl eq_refl eq_refl Htrue) as (_ & Havailable & _).
  pose proof (@list_products_by_availability demo_decl (query [("available", "false")])
                demo_world "false" eq_refl eq_refl eq_refl Hfalse) as (_ & _ & Hunavailable).
  pose proof (@list_products_by_availability demo_decl (query [("available", "True")])
                demo_world "True" eq_refl eq_refl eq_refl HTrue) as ((Hread & _) & _).
  split; [exact (Havailable eq_refl) | split; [exact (Hunavailable eq_refl) | exact Hread]].
Defined.

(** C2 as stated fails on the code.  A request carrying [available=]
    (empty) gets every Product, and a request carrying [name=Pear] with
    [available=true] gets the Products of that name, here none; neither
    answer is the subset flagged available or the subset flagged
    unavailable. *)
Lemma list_products_by_availability_counterexample :
  (fst (list_products (query [("available", "")]) demo_world) =
     Return (list_response [hat; apple]) /\
   fst (list_products (query [("available", "")]) demo_world) <>
     Return (list_response (filter (by_flag true) (rows (db demo_world)))) /\
   fst (list_products (query [("available", "")]) demo_world) <>
     Return (list_response (filter (by_flag false) (rows (db demo_world))))) /\
  (fst (list_products (query [("name", "Pear"); ("available", "true")]) demo_world) =
     Return (@list_response demo_decl []) /\
   fst (list_products (query [("name", "Pear"); ("available", "true")]) demo_world) <>
     Return (list_response (filter (by_flag true) (rows (db demo_world)))) /\
   fst (list_products (query [("name", "Pear"); ("available", "true")]) demo_world) <>
     Return (list_response (filter (by_flag false) (rows (db demo_world))))).
Proof.
  repeat split; try reflexivity; intros H; vm_compute in H; discriminate H.
Qed.



Lemma list_products_empty_parameter_witness :
  fst (list_products (query [("name", ""); ("category", "FOOD")]) demo_world) =
    Return (list_response [apple]) /\
  fst (list_products (query [("name", ""); ("available", "true")]) demo_world) =
    Return (list_response [hat]) /\
  fst (list_products (query [("name", "")]) demo_world) =
    Return (list_response [hat; apple]) /\
  fst (list_products (query [("category", ""); ("available", "false")]) demo_world) =
    Return (list_response [apple]) /\
  fst (list_products (query [("available", "")]) demo_world) =
    Return (list_response [hat; apple]) /\
  list_products (query [("name", ""); ("category", "FOOD")]) demo_world =
    list_products (without "name" (query [("name", ""); ("category", "FOOD")])) demo_world.
Proof.
  pose proof (proj1 (@list_products_empty_parameter demo_decl
      (query [("name", ""); ("category", "FOOD")]) demo_world) eq_refl)
    as (Hcategory & _ & _ & Hwithout).
  pose proof (proj1 (@list_products_empty_parameter demo_decl
      (query [("name", ""); ("available", "true")]) demo_world) eq_refl)
    as (_ & Havailable & _).
  pose proof (proj1 (@list_products_empty_parameter demo_decl
      (query [("name", "")]) demo_world) eq_refl) as (_ & _ & Hall & _).
  pose proof (proj1 (proj2 (@list_products_empty_parameter demo_decl
      (query [("category", ""); ("available", "false")]) demo_world)) eq_refl eq_refl)
    as (Havailable' & _).
  pose proof (proj2 (proj2 (@list_products_empty_parameter demo_decl
      (query [("available", "")]) demo_world)) eq_refl eq_refl eq_refl) as (Hall' & _).
  split; [| split; [| split; [| split; [| split]]]].
  - rewrite (Hcategory "FOOD" eq_refl (or_intror (or_introl eq_refl))). reflexivity.
  - rewrite (Havailable "true" eq_refl eq_refl). reflexivity.
  - rewrite (Hall eq_refl eq_refl). reflexivity.
  - rewrite (Havailable' "false" eq_refl). reflexivity.
  - rewrite Hall'. reflexivity.
  - exact Hwithout.
Defined.

Lemma demo_world_reachable : reachable demo_world.
Proof.
  unfold demo_world.
  apply reachable_step with
    (w := snd (create_products (json_request hat_payload) empty_world)).
  - apply reachable_step with (w := empty_world); [apply reachable_empty | apply step_create].
  - apply step_create.
Defined.

Lemma create_products_then_read_witness :
  let entity := @with_id demo_decl (Some 3) hat in
  fst (create_products (json_request hat_payload) demo_world) = Return (created entity) /\
  json_get (body (created entity)) "id" = Some (JInt 3) /\
  deserialize (Some 3) hat_payload = Return entity /\
  stored (snd (create_products (json_request hat_payload) demo_world)) 3 = Some entity /\
  fst (get_products 3 (snd (create_products (json_request hat_payload) demo_world))) =
    Return (ok entity) /\
  body (ok entity) = body (created entity).
Proof.
  apply (@create_products_then_read demo_decl (json_request hat_payload) demo_world
           hat_payload (with_id None hat) demo_world_reachable); reflexivity.
Defined.

Lemma update_products_replaces_witness :
  let updated := @with_id demo_decl (Some 2) hat in
  fst (update_products (json_request hat_payload) 2 demo_world) = Return (ok updated) /\
  stored (snd (update_products (json_request hat_payload) 2 demo_world)) 2 = Some updated /\
  stored (snd (update_products (json_request hat_payload) 2 demo_world)) 1 = Some hat.
Proof.
  pose proof (@update_products_replaces demo_decl (json_request hat_payload) 2 demo_world
                apple (with_id (Some 2) hat) hat_payload
                eq_refl eq_refl eq_refl eq_refl)
    as (Hresponse & _ & _ & Hstored & Hothers & _).
  split; [exact Hresponse | split; [exact Hstored |]].
  rewrite (Hothers 1); [reflexivity | discriminate].
Defined.

(** C5 as stated fails on the code.  The apple is persisted under id 2 and
    the hat payload is a valid replacement body, yet sent as
    [application/json; charset=utf-8] the update is refused with 415 by the
    Content-Type guard and the apple stays as it was. *)
Lemma update_products_replaces_counterexample :
  stored demo_world 2 = Some apple /\
  deserialize (id apple) hat_payload = Return (@with_id demo_decl (Some 2) hat) /\
  fst (update_products (charset_request hat_payload) 2 demo_world) =
    unsupported_media_type "application/json" /\
  stored (snd (update_products (charset_request hat_payload) 2 demo_world)) 2 = Some apple.
Proof. repeat split; reflexivity. Qed.

Lemma update_products_bad_request_witness :
  fst (update_products (json_request (JDict [])) 1 demo_world) = Return bad_request /\
  fst (update_products (json_request (JDict [("name", JInt 7)])) 1 demo_world) =
    Return bad_request /\
  db (snd (update_products (json_request (JDict [])) 1 demo_world)) = db demo_world.
Proof.
  pose proof (@update_products_bad_request demo_decl (json_request (JDict [])) 1 demo_world
                hat (JDict []) eq_refl eq_refl eq_refl) as (Hfails & _ & Hempty).
  pose proof (@update_products_bad_request demo_decl
                (json_request (JDict [("name", JInt 7)])) 1 demo_world
                hat (JDict [("name", JInt 7)]) eq_refl eq_refl eq_refl) as (_ & Htype & _).
  split; [| split].
  - apply Hempty. reflexivity.
  - apply Htype. left. intros s H. discriminate H.
  - apply Hfails. intros p H. discriminate H.
Defined.

Lemma delete_products_then_gone_witness :
  fst (delete_products 1 demo_world) = Return no_content /\
  stored (snd (delete_products 1 demo_world)) 1 = None /\
  stored (snd (delete_products 1 demo_world)) 2 = Some apple /\
  fst (get_products 1 (snd (delete_products 1 demo_world))) = Return not_found /\
  fst (delete_products 1 (snd (delete_products 1 demo_world))) = Return not_found.
Proof.
  pose proof (@delete_products_then_gone demo_decl 1 demo_world hat
                (or_introl eq_refl) eq_refl)
    as (Hresponse & Hgone & Hothers & Hread & Hagain & _).
  split; [exact Hresponse | split; [exact Hgone | split; [| split; assumption]]].
  rewrite (Hothers 2); [reflexivity | discriminate].
Defined.

Lemma handlers_not_found_witness :
  fst (get_products 22 demo_world) = Return not_found /\
  fst (update_products (json_request hat_payload) 22 demo_world) = Return not_found /\
  fst (delete_products 22 demo_world) = Return not_found /\
  db (snd (delete_products 22 demo_world)) = db demo_world.
Proof.
  pose proof (@handlers_not_found demo_decl (json_request hat_payload) 22 demo_world eq_refl)
    as ((Hget & _) & Hupdate & (Hdelete & Hsame)).
  split; [exact Hget | split; [| split; assumption]].
  apply Hupdate. reflexivity.
Defined.

(** C6 as stated fails on the code.  The hat is persisted under id 1 and the
    empty object fails deserialization, yet sent as
    [application/json; charset=utf-8] the update is answered by the
    Content-Type guard with 415, not with 400. *)
Lemma update_products_bad_request_counterexample :
  stored demo_world 1 = Some hat /\
  @deserialize demo_decl (id hat) (JDict []) = Raise (TypeError "name") /\
  fst (update_products (charset_request (JDict [])) 1 demo_world) =
    unsupported_media_type "application/json".
Proof. repeat split; reflexivity. Qed.

(** ** Runs of the further properties *)

Lemma create_propagates_update_catches_witness :
  fst (create_products (json_request (JDict [])) demo_world) = Raise (TypeError "name") /\
  db (snd (create_products (json_request (JDict [])) demo_world)) = db demo_world /\
  fst (update_products (json_request (JDict [])) 1 demo_world) = Return bad_request.
Proof.
  pose proof (@create_propagates_update_catches demo_decl (json_request (JDict []))
                demo_world (JDict []) (TypeError "name") eq_refl eq_refl eq_refl)
    as (Hcreate & Hdb & Hupdate).
  split; [exact Hcreate | split; [exact Hdb |]].
  apply (Hupdate 1 hat). reflexivity.
Defined.

Lemma undecodable_body_aborts_witness :
  (exists description,
     fst (create_products undecodable_request demo_world) =
       Raise (HTTPException 400 description)) /\
  (exists description,
     fst (update_products undecodable_request 1 demo_world) =
       Raise (HTTPException 400 description)) /\
  fst (update_products undecodable_request 22 demo_world) = Return not_found.
Proof.
  pose proof (@undecodable_body_aborts demo_decl undecodable_request 1 demo_world
                eq_refl eq_refl) as (Hcreate & Hfound & _).
  pose proof (@undecodable_body_aborts demo_decl undecodable_request 22 demo_world
                eq_refl eq_refl) as (_ & _ & Hmissing & _).
  split; [exact Hcreate | split].
  - apply (Hfound hat). reflexivity.
  - apply Hmissing. reflexivity.
Defined.

Lemma update_then_read_witness :
  fst (get_products 2 (snd (update_products (json_request hat_payload) 2 demo_world))) =
    Return (ok (@with_id demo_decl (Some 2) hat)).
Proof.
  apply (@update_then_read demo_decl (json_request hat_payload) 2 demo_world
           apple (with_id (Some 2) hat) hat_payload); reflexivity.
Defined.

Lemma update_idempotent_witness :
  let w1 := snd (update_products (json_request hat_payload) 2 demo_world) in
  fst (update_products (json_request hat_payload) 2 w1) =
    fst (update_products (json_request hat_payload) 2 demo_world) /\
  db (snd (update_products (json_request hat_payload) 2 w1)) = db w1.
Proof.
  apply (@update_idempotent demo_decl (json_request hat_payload) 2 demo_world
           apple (with_id (Some 2) hat) hat_payload); reflexivity.
Defined.

Lemma reachable_catalogue_ok_witness :
  NoDup (map id (rows (db demo_world))) /\
  (forall r, In r (rows (db demo_world)) ->
     (exists i, id r = Some i /\ i < next_id (db demo_world)) /\
     name r <> "" /\
     In (category r) (@Category_names demo_decl)).
Proof.
  exact (@reachable_catalogue_ok demo_decl demo_world demo_world_reachable).
Defined.

Lemma persisted_is_found_witness :
  fst (get_products 1 demo_world) = Return (ok hat) /\
  (exists items,
     fst (list_products (query [("name", "Hat"); ("category", "TOYS")]) demo_world) =
       Return (list_response items) /\ In hat items) /\
  (exists items,
     fst (list_products (query [("category", "CLOTHS")]) demo_world) =
       Return (list_response items) /\ In hat items).
Proof.
  pose proof (@persisted_is_found demo_decl demo_world hat demo_world_reachable
                (or_introl eq_refl)) as ([i [Hid Hget]] & Hname & Hcategory).
  split; [| split].
  - simpl in Hid. inversion Hid. subst i. exact Hget.
  - apply Hname. reflexivity.
  - apply Hcategory; [reflexivity | reflexivity | discriminate].
Defined.

Lemma delete_removes_one_witness :
  fst (delete_products 1 demo_world) = Return no_content /\
  S (length (rows (db (snd (delete_products 1 demo_world))))) =
    length (rows (db demo_world)) /\
  In apple (rows (db (snd (delete_products 1 demo_world)))).
Proof.
  pose proof (@delete_removes_one demo_decl 1 demo_world hat demo_world_reachable eq_refl)
    as (Hresponse & Hcount & _ & Hothers).
  split; [exact Hresponse | split; [exact Hcount |]].
  apply Hothers; [right; left; reflexivity | discriminate].
Defined.

Lemma create_then_delete_witness :
  let w1 := snd (create_products (json_request hat_payload) demo_world) in
  fst (delete_products 3 w1) = Return no_content /\
  rows (db (snd (delete_products 3 w1))) = rows (db demo_world) /\
  next_id (db (snd (delete_products 3 w1))) = 4 /\
  fst (get_products 3 (snd (delete_products 3 w1))) = Return not_found.
Proof.
  apply (@create_then_delete demo_decl (json_request hat_payload) demo_world
           hat_payload (with_id None hat) demo_world_reachable); reflexivity.
Defined.


Lemma list_all_after_posting_witness :
  exists items,
    fst (list_products (query [])
           (post_all [hat_payload; apple_payload] (@empty_world demo_decl))) =
      Return (@list_response demo_decl items) /\
    length items = 2%nat /\
    (forall p, In p items <-> In p (entities 1 [hat_payload; apple_payload])).
Proof.
  apply (@list_all_after_posting demo_decl [hat_payload; apple_payload] empty_world);
    reflexivity.
Defined.

Lemma filter_after_posting_witness :
  fst (list_products (query [("name", "FOOD")])
         (post_all [hat_payload; apple_payload] (@empty_world demo_decl))) =
    Return (@list_response demo_decl []) /\
  fst (list_products (query [("category", "FOOD")])
         (post_all [hat_payload; apple_payload] (@empty_world demo_decl))) =
    Return (list_response [apple]) /\
  length (filter (@by_category demo_decl "FOOD")
            (entities 1 [hat_payload; apple_payload])) =
    length (filter (payload_in_category "FOOD") [hat_payload; apple_payload]).
Proof.
  assert (Hfood : "FOOD" <> "") by discriminate.
  pose proof (@filter_after_posting demo_decl [hat_payload; apple_payload] empty_world
                "FOOD" eq_refl eq_refl Hfood) as ((Hname & _) & Hcategory & _).
  split; [exact Hname |].
  apply Hcategory. right. left. reflexivity.
Defined.

Lemma availability_partition_witness :
  exists available_ unavailable_,
    fst (list_products (query [("available", "true")]) demo_world) =
      Return (list_response available_) /\
    fst (list_products (query [("available", "false")]) demo_world) =
      Return (list_response unavailable_) /\
    fst (list_products (query []) demo_world) =
      Return (list_response (rows (db demo_world))) /\
    (forall p, In p (rows (db demo_world)) <-> In p available_ \/ In p unavailable_) /\
    (forall p, In p available_ -> ~ In p unavailable_) /\
    (length available_ + length unavailable_)%nat = length (rows (db demo_world)).
Proof.
  apply (@availability_partition demo_decl demo_world "true" "false");
    try reflexivity; discriminate.
Defined.

Lemma hat_postable : @postable demo_decl hat.
Proof.
  split; [discriminate | split; [left; reflexivity | reflexivity]].
Defined.

Lemma post_read_put_serialized_witness :
  let entity := @with_id demo_decl (Some 3) hat in
  let changed := with_description (Some "new_description_for_test") entity in
  let w1 := snd (create_products (json_request (serialize hat)) demo_world) in
  fst (create_products (json_request (serialize hat)) demo_world) =
    Return (created entity) /\
  fst (get_products 3 w1) = Return (ok entity) /\
  fst (update_products (json_request (serialize changed)) 3 w1) = Return (ok changed) /\
  stored (snd (update_products (json_request (serialize changed)) 3 w1)) 3 = Some changed.
Proof.
  exact (@post_read_put_serialized demo_decl demo_world hat
           (Some "new_description_for_test") demo_world_reachable hat_postable).
Defined.

Lemma handlers_append_to_log_witness :
  exists first rest,
    logged (snd (delete_products 1 demo_world)) = (logged demo_world ++ first :: rest)%list /\
    levelname first = INFO.
Proof.
  exact (@handlers_append_to_log demo_decl demo_world (snd (delete_products 1 demo_world))
           (step_delete 1 demo_world)).
Defined.
